(** * Ai_Stock.py: indicators, chart assembly and the analysis request

    A shallow embedding of the Streamlit script [src/Ai_Stock.py].

    Conventions of the model.
    - A pandas float is a value of [fval]: the missing marker [NaN], a
      signed infinity, or a finite number.  In [fval] finite arithmetic
      is idealised: it is exact arithmetic on real numbers, without the
      rounding and the overflow of binary64, without signed zeros and
      without the wrap-around of an int64 column (Volume).  The
      theorems about the script therefore speak of which series is
      computed from which column, of where a value is missing, of
      exceptions, objects and output, and none of them asserts the
      numerical value of an indicator; the lemmas that compute values
      in this arithmetic serve to locate the missing values.
    - Where a statement is about the numerical value itself, the numbers
      are binary64 floats ([spec_float] of the standard library with
      precision 53 and exponent bound 1024), whose operations round as
      the hardware does; see the section on values in binary64.
    - A DataFrame is an object in a store; the script's variable [data]
      and the entry [st.session_state["stock_data"]] denote the same
      object, so a column assignment through [data] is seen by the
      session.  The plotly figure is an object of a second store.
    - A script run is a computation in a state-and-exception monad over
      the [world]: the two stores, the session state, the temporary
      files and the stream of Streamlit output.  The page set-up and
      the declaration of the sidebar widgets (lines 13-20, 86-91) hold
      no state and are left out.
    - What the browser and the network supply to a run (button states,
      the multiselect value, the download, the renderer and the model
      endpoint) is collected in the record [env]. *)

From Stdlib Require Import Reals Lra SpecFloat.
From stdpp Require Import gmap strings list fin_maps.

(** ** Numbers *)

(** A cell of a numeric column.  [Fin x] carries the real number [x], and
    the operations below compute on it as on a real number: a sum or a
    quotient of finite values is finite and exact, where binary64 would
    round it or overflow to an infinity.  What the operations do with
    the missing marker and with the infinities is that of IEEE 754. *)
Inductive fval : Type :=
  | NaN
  | Inf (neg : bool)
  | Fin (x : R).

Definition notnull (v : fval) : bool :=
  match v with NaN => false | _ => true end.

Definition isnull (v : fval) : bool := negb (notnull v).

Definition is_zero (x : R) : bool := if Req_dec_T x 0 then true else false.
Definition is_neg (x : R) : bool := if Rlt_dec x 0 then true else false.

Definition fadd (a b : fval) : fval :=
  match a, b with
  | NaN, _ | _, NaN => NaN
  | Fin x, Fin y => Fin (x + y)
  | Inf s, Fin _ | Fin _, Inf s => Inf s
  | Inf s, Inf t => if Bool.eqb s t then Inf s else NaN
  end.

Definition fneg (a : fval) : fval :=
  match a with
  | NaN => NaN
  | Inf s => Inf (negb s)
  | Fin x => Fin (- x)
  end.

Definition fsub (a b : fval) : fval := fadd a (fneg b).

Definition fmul (a b : fval) : fval :=
  match a, b with
  | NaN, _ | _, NaN => NaN
  | Fin x, Fin y => Fin (x * y)
  | Inf s, Fin y | Fin y, Inf s =>
      if is_zero y then NaN else Inf (xorb s (is_neg y))
  | Inf s, Inf t => Inf (xorb s t)
  end.

(** numpy division: [0/0] is NaN and [x/0] is an infinity; nothing is
    raised. *)
Definition fdiv (a b : fval) : fval :=
  match a, b with
  | NaN, _ | _, NaN => NaN
  | Fin x, Fin y =>
      if is_zero y then (if is_zero x then NaN else Inf (is_neg x))
      else Fin (x / y)
  | Fin _, Inf _ => Fin 0
  | Inf s, Fin y => Inf (xorb s (is_neg y))
  | Inf _, Inf _ => NaN
  end.

(** pandas takes the root of a variance with [zsqrt]: negatives give 0. *)
Definition fsqrt (a : fval) : fval :=
  match a with
  | NaN => NaN
  | Inf false => Inf false
  | Inf true => Fin 0
  | Fin x => Fin (sqrt x)
  end.

Definition fsum (l : list fval) : fval := foldr fadd (Fin 0) l.

(** Sum of a list of reals, for the statements. *)
Definition Rsum (l : list R) : R := foldr Rplus 0%R l.

(** ** Series operations (pandas) *)

(** Element-wise operations on two series over the same index. *)
Definition series_add (a b : list fval) : list fval := zip_with fadd a b.
Definition series_sub (a b : list fval) : list fval := zip_with fsub a b.
Definition series_mul (a b : list fval) : list fval := zip_with fmul a b.
Definition series_div (a b : list fval) : list fval := zip_with fdiv a b.
Definition scalar_mul (k : R) (a : list fval) : list fval := fmul (Fin k) <$> a.

(** [Series.cumsum()]: a missing value stays missing at its place and is
    skipped by the running sum.  The sum is that of [fadd]: on the
    int64 column Volume pandas adds modulo 2^64, which is not modelled. *)
Fixpoint cumsum_from (acc : fval) (s : list fval) : list fval :=
  match s with
  | [] => []
  | NaN :: s' => NaN :: cumsum_from acc s'
  | x :: s' => fadd acc x :: cumsum_from (fadd acc x) s'
  end.

Definition cumsum (s : list fval) : list fval := cumsum_from (Fin 0) s.

(** [Series.rolling(window=w)]: the window at index [i] holds the rows
    [i-w+1 .. i], cut at the start of the series.  The aggregations
    below are those of pandas on finite values. *)
Definition window (w : nat) (s : list fval) (i : nat) : list fval :=
  drop (S i - w) (take (S i) s).

Definition rolling (w : nat) (s : list fval) : list (list fval) :=
  (λ i, window w s i) <$> seq 0 (length s).

Definition observations (win : list fval) : list fval := List.filter notnull win.

(** The aggregations of a window.  [minp] is [min_periods], which a
    fixed window defaults to its size; missing values are not counted. *)
Definition window_mean (minp : nat) (win : list fval) : fval :=
  let obs := observations win in
  let n := length obs in
  if (minp <=? n) && (0 <? n)
  then fdiv (fsum obs) (Fin (INR n))
  else NaN.

Definition fsquare (a : fval) : fval := fmul a a.

Definition window_var (minp ddof : nat) (win : list fval) : fval :=
  let obs := observations win in
  let n := length obs in
  if (minp <=? n) && (ddof <? n)
  then
    let m := fdiv (fsum obs) (Fin (INR n)) in
    fdiv (fsum ((λ x, fsquare (fsub x m)) <$> obs)) (Fin (INR (n - ddof)))
  else NaN.

Definition window_std (minp ddof : nat) (win : list fval) : fval :=
  fsqrt (window_var minp ddof win).

(** [BaseWindow._prep_values]: before a rolling or an exponentially
    weighted aggregation pandas replaces infinite values by the missing
    marker. *)
Definition prep_value (v : fval) : fval :=
  match v with
  | Inf _ => NaN
  | _ => v
  end.

Definition prep_values (s : list fval) : list fval := prep_value <$> s.

(** [.rolling(window=w).mean()] and [.rolling(window=w).std()]
    ([ddof] is 1 by default: the sample standard deviation). *)
Definition rolling_mean (w : nat) (s : list fval) : list fval :=
  window_mean w <$> rolling w (prep_values s).

Definition rolling_std (w : nat) (s : list fval) : list fval :=
  window_std w 1 <$> rolling w (prep_values s).

(** [.ewm(span=n).mean()] with pandas' defaults [adjust=True],
    [ignore_na=False], [min_periods=0]: the running weighted mean
    [weighted] and the accumulated weight [old_wt] of the past. *)
Definition alpha_of_span (span : R) : R := (2 / (span + 1))%R.

Fixpoint ewm_from (a : R) (weighted : fval) (old_wt : R) (s : list fval)
  : list fval :=
  match s with
  | [] => []
  | cur :: s' =>
      match weighted, cur with
      | NaN, NaN => NaN :: ewm_from a NaN old_wt s'
      | NaN, _ => cur :: ewm_from a cur old_wt s'
      | _, NaN => weighted :: ewm_from a weighted (old_wt * (1 - a))%R s'
      | _, _ =>
          let ow := (old_wt * (1 - a))%R in
          let w' := fdiv (fadd (fmul (Fin ow) weighted) cur) (Fin (ow + 1)) in
          w' :: ewm_from a w' (ow + 1)%R s'
      end
  end.

Definition ewm_mean (span : R) (s : list fval) : list fval :=
  ewm_from (alpha_of_span span) NaN 1%R (prep_values s).

(** ** Objects: the DataFrame and the plotly figure *)

(** A frame over a [RangeIndex] of [nrows] rows (the script resets the
    index, line 30); every column is a series over that index. *)
Record DataFrame : Type := mkDataFrame {
  nrows : nat;
  columns : gmap string (list fval)
}.

(** [data.empty]: one of the two axes has length 0. *)
Definition df_empty (d : DataFrame) : bool :=
  (nrows d =? 0) || (size (columns d) =? 0).

(** [data.isnull().values.any()] *)
Definition df_any_null (d : DataFrame) : bool :=
  existsb (λ kc : string * list fval, existsb isnull kc.2)
          (map_to_list (columns d)).

(** [data.head()]: the first five rows. *)
Definition df_head (d : DataFrame) : DataFrame :=
  {| nrows := Nat.min 5 (nrows d); columns := take 5 <$> columns d |}.

(** [data[k] = s] for a series over the frame's index. *)
Definition df_set (k : string) (s : list fval) (d : DataFrame) : DataFrame :=
  {| nrows := nrows d; columns := <[k := s]> (columns d) |}.

Inductive trace : Type :=
  | Candlestick (x open high low close : list fval) (name : string)
  | Scatter (x y : list fval) (mode name : string).

Definition trace_name (t : trace) : string :=
  match t with
  | Candlestick _ _ _ _ _ n => n
  | Scatter _ _ _ n => n
  end.

Definition is_candlestick (t : trace) : bool :=
  match t with Candlestick _ _ _ _ _ _ => true | Scatter _ _ _ _ => false end.

Definition is_line (t : trace) : bool :=
  match t with
  | Scatter _ _ mode _ => String.eqb mode "lines"
  | Candlestick _ _ _ _ _ _ => false
  end.

Record layout : Type := mkLayout {
  title : option string;
  xaxis_title : option string;
  yaxis_title : option string;
  xaxis_rangeslider_visible : option bool
}.

Record Figure : Type := mkFigure {
  traces : list trace;
  fig_layout : layout
}.

(** ** Exceptions, Streamlit output, the world *)

Inductive exn : Type :=
  | KeyError (key : string)
  | ValueError (msg : string)
  | OtherError (msg : string).

(** [str(e)] as the f-strings of the script print it. *)
Definition exn_str (e : exn) : string :=
  match e with
  | KeyError k => "'" +:+ k +:+ "'"
  | ValueError m => m
  | OtherError m => m
  end.

Definition is_ValueError (e : exn) : bool :=
  match e with ValueError _ => true | _ => false end.

Definition any_Exception (e : exn) : bool := true.

Inductive ui_event : Type :=
  | USuccess (s : string)
  | UError (s : string)
  | UWarning (s : string)
  | UInfo (s : string)
  | UWrite (s : string)
  | UWriteFrame (d : DataFrame)
  | UWriteDtypes (cols : gset string)
  | USubheader (s : string)
  | USpinner (s : string)
  | UPlotlyChart (f : Figure).

Record world : Type := mkWorld {
  frames : gmap nat DataFrame;
  figures : gmap nat Figure;
  session_state : gmap string (option nat);
  files : gmap nat (list Z);
  ui : list ui_event
}.

Definition with_frames (f : gmap nat DataFrame) (w : world) : world :=
  {| frames := f; figures := figures w; session_state := session_state w;
     files := files w; ui := ui w |}.
Definition with_figures (f : gmap nat Figure) (w : world) : world :=
  {| frames := frames w; figures := f; session_state := session_state w;
     files := files w; ui := ui w |}.
Definition with_session (s : gmap string (option nat)) (w : world) : world :=
  {| frames := frames w; figures := figures w; session_state := s;
     files := files w; ui := ui w |}.
Definition with_files (f : gmap nat (list Z)) (w : world) : world :=
  {| frames := frames w; figures := figures w; session_state := session_state w;
     files := f; ui := ui w |}.
Definition with_ui (u : list ui_event) (w : world) : world :=
  {| frames := frames w; figures := figures w; session_state := session_state w;
     files := files w; ui := u |}.

(** How a computation ends: a value, a Python exception on its way up,
    or [st.stop()], which ends the run and which no [except Exception]
    catches. *)
Inductive outcome (A : Type) : Type :=
  | Ok (a : A)
  | Raise (e : exn)
  | Stop.
Arguments Ok {A} a.
Arguments Raise {A} e.
Arguments Stop {A}.

Definition M (A : Type) : Type := world → outcome A * world.

Definition ret {A} (a : A) : M A := λ w, (Ok a, w).

Definition bind {A B} (m : M A) (k : A → M B) : M B :=
  λ w, match m w with
       | (Ok a, w') => k a w'
       | (Raise e, w') => (Raise e, w')
       | (Stop, w') => (Stop, w')
       end.

Definition raise {A} (e : exn) : M A := λ w, (Raise e, w).

Definition st_stop {A} : M A := λ w, (Stop, w).

(** [try: m  except <catches> as e: h e] *)
Definition try_except {A} (m : M A) (catches : exn → bool) (h : exn → M A)
  : M A :=
  λ w, match m w with
       | (Raise e, w') => if catches e then h e w' else (Raise e, w')
       | r => r
       end.

Notation "x <- m ;; k" := (bind m (λ x, k))
  (at level 62, m at next level, right associativity, only parsing).
Notation "'do' m ;; k" := (bind m (λ _, k))
  (at level 62, m at next level, right associativity, only parsing).

Definition lift {A} (r : exn + A) : M A :=
  match r with inl e => raise e | inr a => ret a end.

Fixpoint for_each {A} (l : list A) (body : A → M unit) : M unit :=
  match l with
  | [] => ret tt
  | a :: l' => do body a ;; for_each l' body
  end.

(** ** Primitive operations *)

Definition emit (ev : ui_event) : M unit :=
  λ w, (Ok tt, with_ui (ui w ++ [ev]) w).

Definition st_success (s : string) : M unit := emit (USuccess s).
Definition st_error (s : string) : M unit := emit (UError s).
Definition st_warning (s : string) : M unit := emit (UWarning s).
Definition st_info (s : string) : M unit := emit (UInfo s).
Definition st_write (s : string) : M unit := emit (UWrite s).
Definition st_subheader (s : string) : M unit := emit (USubheader s).

(** A reference held by a variable always denotes a live object; the
    [None] branches below are never taken from the script. *)
Definition get_frame (data : nat) : M DataFrame :=
  λ w, match frames w !! data with
       | Some d => (Ok d, w)
       | None => (Raise (OtherError "no such object"), w)
       end.

Definition get_figure (fig : nat) : M Figure :=
  λ w, match figures w !! fig with
       | Some f => (Ok f, w)
       | None => (Raise (OtherError "no such object"), w)
       end.

(** [pd.DataFrame(...)]: a new object. *)
Definition new_frame (d : DataFrame) : M nat :=
  λ w, let l := fresh (dom (frames w)) in
       (Ok l, with_frames (<[l := d]> (frames w)) w).

(** [data[k]] *)
Definition getitem (data : nat) (k : string) : M (list fval) :=
  d <- get_frame data ;;
  match columns d !! k with
  | Some c => ret c
  | None => raise (KeyError k)
  end.

(** [data[k] = s]: the object is changed in place. *)
Definition setitem (data : nat) (k : string) (s : list fval) : M unit :=
  d <- get_frame data ;;
  λ w, (Ok tt, with_frames (<[data := df_set k s d]> (frames w)) w).

(** [pd.to_numeric(s)]: a numeric series is returned as it is.  Columns
    of dtype object are not part of the model. *)
Definition to_numeric (s : list fval) : M (list fval) := ret s.

(** [go.Figure(data=ts)] *)
Definition go_Figure (ts : list trace) : M nat :=
  λ w, let l := fresh (dom (figures w)) in
       (Ok l,
        with_figures
          (<[l := {| traces := ts;
                     fig_layout := mkLayout None None None None |}]>
             (figures w)) w).

Definition modify_figure (fig : nat) (g : Figure → Figure) : M unit :=
  f <- get_figure fig ;;
  λ w, (Ok tt, with_figures (<[fig := g f]> (figures w)) w).

(** [fig.add_trace(t)] *)
Definition add_trace (fig : nat) (t : trace) : M unit :=
  modify_figure fig
    (λ f, {| traces := traces f ++ [t]; fig_layout := fig_layout f |}).

(** [fig.update_layout(...)] *)
Definition update_layout (fig : nat) (g : layout → layout) : M unit :=
  modify_figure fig
    (λ f, {| traces := traces f; fig_layout := g (fig_layout f) |}).

(** [st.plotly_chart(fig)]: the figure as it is now is sent to the page. *)
Definition st_plotly_chart (fig : nat) : M unit :=
  f <- get_figure fig ;; emit (UPlotlyChart f).

(** Session state. *)
Definition session_contains (k : string) : M bool :=
  λ w, (Ok (bool_decide (is_Some (session_state w !! k))), w).

Definition session_get (k : string) : M (option nat) :=
  λ w, match session_state w !! k with
       | Some v => (Ok v, w)
       | None => (Raise (KeyError k), w)
       end.

Definition session_set (k : string) (v : option nat) : M unit :=
  λ w, (Ok tt, with_session (<[k := v]> (session_state w)) w).

(** Files: [tempfile.NamedTemporaryFile(delete=False)] creates an empty
    file under a name not in use; paths are numbered. *)
Definition named_temporary_file : M nat :=
  λ w, let p := fresh (dom (files w)) in
       (Ok p, with_files (<[p := []]> (files w)) w).

Definition write_file (p : nat) (content : list Z) : M unit :=
  λ w, (Ok tt, with_files (<[p := content]> (files w)) w).

Definition read_file (p : nat) : M (list Z) :=
  λ w, match files w !! p with
       | Some c => (Ok c, w)
       | None => (Raise (OtherError "No such file or directory"), w)
       end.

Definition os_remove (p : nat) : M unit :=
  λ w, match files w !! p with
       | Some _ => (Ok tt, with_files (delete p (files w)) w)
       | None => (Raise (OtherError "No such file or directory"), w)
       end.

(** ** What a run receives from outside *)

Inductive base64 : Type := b64encode (raw : list Z).

Record chat_message : Type := mkMessage {
  role : string;
  content : string;
  images : list base64
}.

Record env : Type := mkEnv {
  ticker : string;
  (** [st.sidebar.button("Fetch Data")] *)
  fetch_button : bool;
  (** lines 25-30: the download, flattened and re-indexed, or what it raises *)
  yf_download : exn + DataFrame;
  (** the value of the multiselect *)
  indicators : list string;
  (** [st.button("Run AI Analysis")] *)
  analysis_button : bool;
  (** [fig.write_image]: the renderer *)
  write_image : Figure → exn + list Z;
  (** [ollama.chat] *)
  ollama_chat : string → list chat_message → exn + gmap string (gmap string string)
}.

(** The options of the multiselect (line 89). *)
Definition indicator_options : list string :=
  ["20-Day SMA"; "20-Day EMA"; "20-Day Bollinger Bands"; "VWAP"].

(** ** The script *)

(** Lines 23-36. *)
Definition fetch_data (e : env) : M unit :=
  if fetch_button e then
    try_except
      (d <- lift (yf_download e) ;;
       data <- new_frame d ;;
       do session_set "stock_data" (Some data) ;;
       st_success "Stock data loaded successfully!")
      any_Exception
      (λ ex, do st_error ("Error fetching data: " +:+ exn_str ex) ;; st_stop)
  else ret tt.

(** Line 43: [data is not None and not data.empty and not
    data.isnull().values.any()]. *)
Definition data_available (data : option nat) : M bool :=
  match data with
  | None => ret false
  | Some l =>
      d <- get_frame l ;;
      ret (negb (df_empty d) && negb (df_any_null d))
  end.

(** Lines 45-52. *)
Definition show_data (data : nat) : M unit :=
  _ <- getitem data "Open" ;;
  do st_write "Type of data['Open']: <class 'pandas.core.series.Series'>" ;;
  do st_write "Type of data: <class 'pandas.core.frame.DataFrame'>" ;;
  do st_write "First 5 rows of data:" ;;
  d <- get_frame data ;;
  do emit (UWriteFrame (df_head d)) ;;
  do st_write "Data types of each column:" ;;
  d <- get_frame data ;;
  emit (UWriteDtypes (dom (columns d))).

Definition convert_column (data : nat) (k : string) : M unit :=
  c <- getitem data k ;;
  c' <- to_numeric c ;;
  setitem data k c'.

(** Lines 55-63. *)
Definition convert_numeric (data : nat) : M unit :=
  try_except
    (do convert_column data "Open" ;;
     do convert_column data "High" ;;
     do convert_column data "Low" ;;
     do convert_column data "Close" ;;
     convert_column data "Volume")
    is_ValueError
    (λ ex, do st_error ("Error converting data to numeric: " +:+ exn_str ex) ;;
           st_stop).

(** Lines 66-83. *)
Definition candlestick_figure (e : env) (data : nat) : M nat :=
  x <- getitem data "Date" ;;
  o <- getitem data "Open" ;;
  h <- getitem data "High" ;;
  l <- getitem data "Low" ;;
  c <- getitem data "Close" ;;
  fig <- go_Figure [Candlestick x o h l c "Candlestick"] ;;
  do update_layout fig
       (λ ly, {| title := Some ("Candlestick Chart for " +:+ ticker e);
                 xaxis_title := Some "Date";
                 yaxis_title := Some "Price";
                 xaxis_rangeslider_visible := xaxis_rangeslider_visible ly |}) ;;
  do st_plotly_chart fig ;;
  ret fig.

(** Lines 94-113. *)
Definition add_indicator (indicator : string) (data fig : nat) : M unit :=
  try_except
    (if String.eqb indicator "20-Day SMA" then
       close <- getitem data "Close" ;;
       let sma := rolling_mean 20 close in
       x <- getitem data "Date" ;;
       add_trace fig (Scatter x sma "lines" "SMA (20)")
     else if String.eqb indicator "20-Day EMA" then
       close <- getitem data "Close" ;;
       let ema := ewm_mean 20 close in
       x <- getitem data "Date" ;;
       add_trace fig (Scatter x ema "lines" "EMA (20)")
     else if String.eqb indicator "20-Day Bollinger Bands" then
       close <- getitem data "Close" ;;
       let sma := rolling_mean 20 close in
       close' <- getitem data "Close" ;;
       let std := rolling_std 20 close' in
       let bb_upper := series_add sma (scalar_mul 2 std) in
       let bb_lower := series_sub sma (scalar_mul 2 std) in
       x <- getitem data "Date" ;;
       do add_trace fig (Scatter x bb_upper "lines" "BB Upper") ;;
       x' <- getitem data "Date" ;;
       add_trace fig (Scatter x' bb_lower "lines" "BB Lower")
     else if String.eqb indicator "VWAP" then
       close <- getitem data "Close" ;;
       volume <- getitem data "Volume" ;;
       volume' <- getitem data "Volume" ;;
       do setitem data "VWAP"
            (series_div (cumsum (series_mul close volume)) (cumsum volume')) ;;
       x <- getitem data "Date" ;;
       y <- getitem data "VWAP" ;;
       add_trace fig (Scatter x y "lines" "VWAP")
     else ret tt)
    any_Exception
    (λ ex, st_error ("Error adding indicator " +:+ indicator +:+ ": "
                     +:+ exn_str ex)).

(** Lines 116-117. *)
Definition add_indicators (selected : list string) (data fig : nat) : M unit :=
  for_each selected (λ indicator, add_indicator indicator data fig).

(** Lines 66-120: the chart of one run. *)
Definition build_chart (e : env) (data : nat) : M nat :=
  fig <- candlestick_figure e data ;;
  do add_indicators (indicators e) data fig ;;
  do update_layout fig
       (λ ly, {| title := title ly; xaxis_title := xaxis_title ly;
                 yaxis_title := yaxis_title ly;
                 xaxis_rangeslider_visible := Some false |}) ;;
  do st_plotly_chart fig ;;
  ret fig.

Definition analysis_prompt : string :=
  "You are a Stock Trader specializing in Technical Analysis at a top financial institution.
                            Analyze the stock chart's technical indicators and provide a buy/hold/sell recommendation.
                            Base your recommendation only on the candlestick chart and the displayed technical indicators.
                            First, provide the recommendation, then, provide your detailed reasoning.
                ".

(** [d[k]] on what the endpoint returned. *)
Definition dict_get {V} (d : gmap string V) (k : string) : M V :=
  match d !! k with
  | Some v => ret v
  | None => raise (KeyError k)
  end.

(** Lines 124-152. *)
Definition run_analysis (e : env) (fig : nat) : M unit :=
  do emit (USpinner "Analyzing the chart, please wait...") ;;
  tmpfile <- named_temporary_file ;;
  f <- get_figure fig ;;
  png <- lift (write_image e f) ;;
  do write_file tmpfile png ;;
  let tmpfile_path := tmpfile in
  raw <- read_file tmpfile_path ;;
  let image_data := b64encode raw in
  let messages :=
    [ {| role := "user"; content := analysis_prompt; images := [image_data] |} ] in
  response <- lift (ollama_chat e "llama3.2-vision" messages) ;;
  do st_write "**AI Analysis Results:**" ;;
  message <- dict_get response "message" ;;
  text <- dict_get message "content" ;;
  do st_write text ;;
  os_remove tmpfile_path.

Definition no_data_warning : string :=
  "No data found for the specified ticker and date range, or data contains NaN values. Please check your inputs.".

Definition click_fetch_info : string := "Click 'Fetch Data' to load stock data.".

(** Lines 39-158. *)
Definition dashboard (e : env) : M unit :=
  present <- session_contains "stock_data" ;;
  if present : bool then
    data <- session_get "stock_data" ;;
    ok <- data_available data ;;
    match data, ok with
    | Some data, true =>
        do show_data data ;;
        do convert_numeric data ;;
        fig <- build_chart e data ;;
        do st_subheader "AI-Powered Analysis" ;;
        if analysis_button e then run_analysis e fig else ret tt
    | _, _ =>
        do st_warning no_data_warning ;;
        st_info click_fetch_info
    end
  else st_info click_fetch_info.

(** One run of the script, top to bottom. *)
Definition script (e : env) : M unit :=
  do fetch_data e ;; dashboard e.

(** ** The price series and the indicators of the specification *)

(** One daily record.  Every field is finite by its type. *)
Record bar : Type := mkBar {
  bar_date : R;
  bar_open : R;
  bar_high : R;
  bar_low : R;
  bar_close : R;
  bar_volume : R
}.

Definition fin_col (f : bar → R) (rows : list bar) : list fval :=
  Fin <$> (f <$> rows).

(** The frame [d] holds the price series [rows]: the six columns carry
    the records, no value is missing, no volume is negative.  Further
    columns of [d] are left open. *)
Record price_series (d : DataFrame) (rows : list bar) : Prop := {
  ps_nrows : nrows d = length rows;
  ps_date : columns d !! "Date" = Some (fin_col bar_date rows);
  ps_open : columns d !! "Open" = Some (fin_col bar_open rows);
  ps_high : columns d !! "High" = Some (fin_col bar_high rows);
  ps_low : columns d !! "Low" = Some (fin_col bar_low rows);
  ps_close : columns d !! "Close" = Some (fin_col bar_close rows);
  ps_volume : columns d !! "Volume" = Some (fin_col bar_volume rows);
  ps_volume_nonneg : Forall (λ b, 0 <= bar_volume b)%R rows
}.

(** The frame with exactly the six columns of [rows]. *)
Definition frame_of (rows : list bar) : DataFrame :=
  {| nrows := length rows;
     columns :=
       <["Date" := fin_col bar_date rows]>
       (<["Open" := fin_col bar_open rows]>
       (<["High" := fin_col bar_high rows]>
       (<["Low" := fin_col bar_low rows]>
       (<["Close" := fin_col bar_close rows]>
       (<["Volume" := fin_col bar_volume rows]> ∅))))) |}.

(** The values [xs[lo..hi]], both ends included. *)
Definition slice (xs : list R) (lo hi : nat) : list R :=
  take (S hi - lo) (drop lo xs).

(** Arithmetic mean and sample standard deviation of a list. *)
Definition mean (xs : list R) : R := (Rsum xs / INR (length xs))%R.

Definition sample_std (xs : list R) : R :=
  sqrt (Rsum ((λ x, (x - mean xs) * (x - mean xs))%R <$> xs)
        / (INR (length xs) - 1))%R.

(** Running sums over the rows [0..i]. *)
Definition cum_volume (rows : list bar) (i : nat) : R :=
  Rsum (take (S i) (bar_volume <$> rows)).

Definition cum_close_volume (rows : list bar) (i : nat) : R :=
  Rsum (take (S i) (zip_with Rmult (bar_close <$> rows) (bar_volume <$> rows))).

(** The series of line 110. *)
Definition vwap_series (close volume : list fval) : list fval :=
  series_div (cumsum (series_mul close volume)) (cumsum volume).

(** What [add_indicator] contributes, as a function of the frame: the
    layers of the indicator, or the exception that stops it. *)
Definition indicator_layers (indicator : string) (d : DataFrame)
  : exn + list trace :=
  if String.eqb indicator "20-Day SMA" then
    match columns d !! "Close", columns d !! "Date" with
    | Some close, Some x => inr [Scatter x (rolling_mean 20 close) "lines" "SMA (20)"]
    | None, _ => inl (KeyError "Close")
    | _, None => inl (KeyError "Date")
    end
  else if String.eqb indicator "20-Day EMA" then
    match columns d !! "Close", columns d !! "Date" with
    | Some close, Some x => inr [Scatter x (ewm_mean 20 close) "lines" "EMA (20)"]
    | None, _ => inl (KeyError "Close")
    | _, None => inl (KeyError "Date")
    end
  else if String.eqb indicator "20-Day Bollinger Bands" then
    match columns d !! "Close", columns d !! "Date" with
    | Some close, Some x =>
        let sma := rolling_mean 20 close in
        let std := rolling_std 20 close in
        inr [Scatter x (series_add sma (scalar_mul 2 std)) "lines" "BB Upper";
             Scatter x (series_sub sma (scalar_mul 2 std)) "lines" "BB Lower"]
    | None, _ => inl (KeyError "Close")
    | _, None => inl (KeyError "Date")
    end
  else if String.eqb indicator "VWAP" then
    match columns d !! "Close", columns d !! "Volume", columns d !! "Date" with
    | Some close, Some volume, Some x =>
        inr [Scatter x (vwap_series close volume) "lines" "VWAP"]
    | None, _, _ => inl (KeyError "Close")
    | _, None, _ => inl (KeyError "Volume")
    | _, _, None => inl (KeyError "Date")
    end
  else inr [].

(** The frame [add_indicator] leaves behind. *)
Definition indicator_frame (indicator : string) (d : DataFrame) : DataFrame :=
  if String.eqb indicator "VWAP" then
    match columns d !! "Close", columns d !! "Volume" with
    | Some close, Some volume => df_set "VWAP" (vwap_series close volume) d
    | _, _ => d
    end
  else d.

Definition layers_or_none (r : exn + list trace) : list trace :=
  match r with inl _ => [] | inr ts => ts end.

Definition indicator_errors (indicator : string) (r : exn + list trace)
  : list ui_event :=
  match r with
  | inl ex => [UError ("Error adding indicator " +:+ indicator +:+ ": "
                       +:+ exn_str ex)]
  | inr _ => []
  end.

Definition add_layers (f : Figure) (ts : list trace) : Figure :=
  {| traces := traces f ++ ts; fig_layout := fig_layout f |}.

(** The names of the layers of an indicator, as the claims list them. *)
Definition layer_names (indicator : string) : list string :=
  if String.eqb indicator "20-Day SMA" then ["SMA (20)"]
  else if String.eqb indicator "20-Day EMA" then ["EMA (20)"]
  else if String.eqb indicator "20-Day Bollinger Bands" then ["BB Upper"; "BB Lower"]
  else if String.eqb indicator "VWAP" then ["VWAP"]
  else [].

(** A series value is defined where it is a finite number and undefined
    where it is the missing marker. *)
Definition defined_at (s : list fval) (i : nat) : Prop :=
  ∃ x, s !! i = Some (Fin x).


(** The world after [add_indicator], given the frame and the figure the
    two references denote. *)
Definition after_indicator (indicator : string) (data fig : nat)
    (d : DataFrame) (f : Figure) (w : world) : world :=
  {| frames := <[data := indicator_frame indicator d]> (frames w);
     figures :=
       <[fig := add_layers f (layers_or_none (indicator_layers indicator d))]>
         (figures w);
     session_state := session_state w;
     files := files w;
     ui := ui w ++ indicator_errors indicator (indicator_layers indicator d) |}.

(** The loop of lines 116-117 over a selection. *)
Definition frame_after (selected : list string) (d : DataFrame) : DataFrame :=
  foldl (λ d indicator, indicator_frame indicator d) d selected.

Definition selected_layers (selected : list string) (d : DataFrame)
  : list trace :=
  flat_map (λ indicator, layers_or_none (indicator_layers indicator d)) selected.

Definition selected_errors (selected : list string) (d : DataFrame)
  : list ui_event :=
  flat_map (λ indicator, indicator_errors indicator (indicator_layers indicator d))
           selected.

(** The chart of lines 66-120. *)
Definition chart_layout (e : env) (slider : option bool) : layout :=
  {| title := Some ("Candlestick Chart for " +:+ ticker e);
     xaxis_title := Some "Date";
     yaxis_title := Some "Price";
     xaxis_rangeslider_visible := slider |}.

Definition candlestick_layer (d : DataFrame) : option trace :=
  x ← columns d !! "Date";
  o ← columns d !! "Open";
  h ← columns d !! "High";
  l ← columns d !! "Low";
  c ← columns d !! "Close";
  Some (Candlestick x o h l c "Candlestick").

Definition base_chart (e : env) (t : trace) : Figure :=
  {| traces := [t]; fig_layout := chart_layout e None |}.

Definition chart_of (e : env) (d : DataFrame) (t : trace) : Figure :=
  {| traces := t :: selected_layers (indicators e) d;
     fig_layout := chart_layout e (Some false) |}.

Definition chart_events (e : env) (d : DataFrame) (t : trace) : list ui_event :=
  [UPlotlyChart (base_chart e t)]
  ++ selected_errors (indicators e) d
  ++ [UPlotlyChart (chart_of e d t)].

Definition is_failure_message (ev : ui_event) : bool :=
  match ev with
  | UError _ | UWarning _ => true
  | _ => false
  end.

Definition is_chart (ev : ui_event) : bool :=
  match ev with UPlotlyChart _ => true | _ => false end.

(** ** Sample inputs *)

(** Trading day [n]: a bar with volume 1000. *)
Definition day (n : nat) : bar :=
  {| bar_date := INR n; bar_open := 10; bar_high := 12; bar_low := 9;
     bar_close := 11; bar_volume := 1000 |}.

Definition sample_rows (n : nat) : list bar := day <$> seq 0 n.

(** Two days of an instrument that reports no volume on the first. *)
Definition zero_volume_rows : list bar :=
  [ {| bar_date := 0; bar_open := 10; bar_high := 12; bar_low := 9;
       bar_close := 11; bar_volume := 0 |};
    {| bar_date := 1; bar_open := 11; bar_high := 13; bar_low := 10;
       bar_close := 12; bar_volume := 500 |} ].

(** A download without rows, and one with a missing close. *)
Definition empty_frame : DataFrame := frame_of [].

Definition null_close_frame : DataFrame :=
  df_set "Close" [NaN] (frame_of (sample_rows 1)).

(** A frame that lost its Volume column. *)
Definition no_volume_frame : DataFrame :=
  {| nrows := 1; columns := delete "Volume" (columns (frame_of (sample_rows 1))) |}.

(** A session that holds the frame [d], before any chart. *)
Definition session_with (d : DataFrame) : world :=
  {| frames := {[ 0 := d ]};
     figures := ∅;
     session_state := {[ "stock_data" := Some 0 ]};
     files := ∅;
     ui := [] |}.

(** A session that has one figure as well. *)
Definition session_with_chart (d : DataFrame) (f : Figure) : world :=
  {| frames := {[ 0 := d ]};
     figures := {[ 0 := f ]};
     session_state := {[ "stock_data" := Some 0 ]};
     files := ∅;
     ui := [] |}.

Definition fresh_session : world :=
  {| frames := ∅; figures := ∅; session_state := ∅; files := ∅; ui := [] |}.

Definition blank_figure : Figure :=
  {| traces := []; fig_layout := mkLayout None None None None |}.

Definition sample_png : list Z := [137; 80; 78; 71]%Z.

(** A run that only looks at the chart with the given selection. *)
Definition view (selected : list string) : env :=
  {| ticker := "AAPL";
     fetch_button := false;
     yf_download := inl (OtherError "not requested");
     indicators := selected;
     analysis_button := false;
     write_image := λ _, inr sample_png;
     ollama_chat := λ _ _, inl (OtherError "not requested") |}.

(** A run in which "Fetch Data" was pressed and the download gave [d]. *)
Definition fetch (d : DataFrame) : env :=
  {| ticker := "AAPL";
     fetch_button := true;
     yf_download := inr d;
     indicators := ["20-Day SMA"];
     analysis_button := false;
     write_image := λ _, inr sample_png;
     ollama_chat := λ _ _, inl (OtherError "not requested") |}.

(** A run in which "Run AI Analysis" was pressed, with the behaviour of
    the renderer and of the endpoint. *)
Definition analyze (render : exn + list Z)
    (chat : exn + gmap string (gmap string string)) : env :=
  {| ticker := "AAPL";
     fetch_button := false;
     yf_download := inl (OtherError "not requested");
     indicators := ["20-Day SMA"];
     analysis_button := true;
     write_image := λ _, render;
     ollama_chat := λ _ _, chat |}.

Definition reply (text : string) : gmap string (gmap string string) :=
  {[ "message" := {[ "role" := "assistant"; "content" := text ]} ]}.

(** ** Further notions for the statements *)

(** What lines 45-52 write for the frame [d]. *)
Definition show_events (d : DataFrame) : list ui_event :=
  [ UWrite "Type of data['Open']: <class 'pandas.core.series.Series'>";
    UWrite "Type of data: <class 'pandas.core.frame.DataFrame'>";
    UWrite "First 5 rows of data:";
    UWriteFrame (df_head d);
    UWrite "Data types of each column:";
    UWriteDtypes (dom (columns d)) ].

(** The request of lines 136-145 for the image [png]. *)
Definition analysis_request (png : list Z) : list chat_message :=
  [ {| role := "user"; content := analysis_prompt; images := [b64encode png] |} ].

(** A frame that lost its Date column. *)
Definition no_date_frame : DataFrame :=
  {| nrows := 1; columns := delete "Date" (columns (frame_of (sample_rows 1))) |}.

(** A run in which "Fetch Data" was pressed and the download raised. *)
Definition failed_fetch (ex : exn) : env :=
  {| ticker := "AAPL";
     fetch_button := true;
     yf_download := inl ex;
     indicators := ["20-Day SMA"];
     analysis_button := false;
     write_image := λ _, inr sample_png;
     ollama_chat := λ _ _, inl (OtherError "not requested") |}.



(** ** Binary64 numbers *)







(** * Properties *)

(** ** Arithmetic on finite values *)

Lemma is_zero_false x : x ≠ 0%R → is_zero x = false.
Proof.
  intros H. unfold is_zero.
  destruct (Req_dec_T x 0); [contradiction | reflexivity].
Qed.

Lemma is_zero_true : is_zero 0 = true.
Proof.
  unfold is_zero. destruct (Req_dec_T 0 0); [reflexivity | contradiction].
Qed.

Lemma fdiv_fin x y : y ≠ 0%R → fdiv (Fin x) (Fin y) = Fin (x / y).
Proof. intros H. simpl. by rewrite is_zero_false. Qed.

Lemma fsum_fin (l : list R) : fsum (Fin <$> l) = Fin (Rsum l).
Proof.
  induction l as [|x l IH]; [reflexivity|].
  unfold fsum, Rsum in *. csimpl. rewrite IH. reflexivity.
Qed.

Lemma observations_fin (l : list R) : observations (Fin <$> l) = Fin <$> l.
Proof.
  induction l as [|x l IH]; [reflexivity|].
  unfold observations in *. csimpl. by rewrite IH.
Qed.

Lemma window_fin w (l : list R) i :
  window w (Fin <$> l) i = Fin <$> drop (S i - w) (take (S i) l).
Proof. unfold window. by rewrite <- fmap_take, <- fmap_drop. Qed.

(** The window of the code and the slice of the specification. *)
Lemma window_slice (l : list R) i :
  19 ≤ i → drop (S i - 20) (take (S i) l) = slice l (i - 19) i.
Proof.
  intros H. unfold slice. rewrite take_drop_commute.
  replace (i - 19 + (S i - (i - 19))) with (S i) by lia.
  replace (S i - 20) with (i - 19) by lia. reflexivity.
Qed.

Lemma prep_values_fin (l : list R) : prep_values (Fin <$> l) = Fin <$> l.
Proof.
  unfold prep_values. rewrite <- list_fmap_compose.
  apply list_fmap_ext. intros _ x _. reflexivity.
Qed.

Lemma rolling_lookup w (s : list fval) i :
  i < length s → rolling w s !! i = Some (window w s i).
Proof.
  intros H. unfold rolling.
  rewrite list_lookup_fmap, lookup_seq_lt by done. reflexivity.
Qed.

Lemma slice_length (l : list R) i :
  19 ≤ i → i < length l → length (slice l (i - 19) i) = 20.
Proof. intros. unfold slice. rewrite length_take, length_drop. lia. Qed.

Lemma INR_20 : INR 20 = 20%R.
Proof. rewrite INR_IZR_INZ. reflexivity. Qed.

(** The rolling mean of a series without missing values. *)
Lemma rolling_mean_fin (cs : list R) i :
  i < length cs →
  rolling_mean 20 (Fin <$> cs) !! i =
    Some (if decide (19 ≤ i) then Fin (mean (slice cs (i - 19) i)) else NaN).
Proof.
  intros Hi. unfold rolling_mean. rewrite prep_values_fin.
  rewrite list_lookup_fmap, rolling_lookup by (by rewrite length_fmap).
  simpl. f_equal. rewrite window_fin. unfold window_mean.
  rewrite observations_fin, length_fmap, fsum_fin.
  case_decide as H19.
  - rewrite window_slice by done. rewrite (slice_length cs i) by done. simpl (_ && _).
    cbv iota. rewrite fdiv_fin. 2:{ rewrite INR_20. lra. }
    unfold mean. rewrite slice_length by done. reflexivity.
  - rewrite length_drop, length_take.
    replace (20 <=? _) with false; [reflexivity|]. symmetry. apply Nat.leb_gt. lia.
Qed.

Lemma fmap_fin_sq (m : R) (l : list R) :
  (λ x, fsquare (fsub x (Fin m))) <$> (Fin <$> l) =
    Fin <$> ((λ x, (x - m) * (x - m))%R <$> l).
Proof.
  rewrite <- !list_fmap_compose. apply list_fmap_ext. intros _ x _. reflexivity.
Qed.

Lemma window_std_fin (l : list R) : length l = 20 →
  window_std 20 1 (Fin <$> l) = Fin (sample_std l).
Proof.
  intros Hl. unfold window_std, window_var.
  rewrite observations_fin, length_fmap, fsum_fin, Hl. simpl (_ && _). cbv iota zeta.
  rewrite fdiv_fin by (rewrite INR_20; lra).
  rewrite fmap_fin_sq, fsum_fin.
  change (20 - 1) with 19.
  assert (H19 : INR 19 = 19%R) by (rewrite INR_IZR_INZ; reflexivity).
  rewrite fdiv_fin by (rewrite H19; lra).
  unfold fsqrt, sample_std, mean. rewrite Hl, H19, INR_20. do 2 f_equal. lra.
Qed.

(** The rolling standard deviation of a series without missing values. *)
Lemma rolling_std_fin (cs : list R) i :
  i < length cs →
  rolling_std 20 (Fin <$> cs) !! i =
    Some (if decide (19 ≤ i)
          then Fin (sample_std (slice cs (i - 19) i)) else NaN).
Proof.
  intros Hi. unfold rolling_std. rewrite prep_values_fin.
  rewrite list_lookup_fmap, rolling_lookup by (by rewrite length_fmap).
  simpl. f_equal. rewrite window_fin.
  case_decide as H19.
  - rewrite window_slice by done. apply window_std_fin. by apply slice_length.
  - unfold window_std, window_var.
    rewrite observations_fin, length_fmap, length_drop, length_take.
    replace (20 <=? _) with false; [reflexivity|]. symmetry. apply Nat.leb_gt. lia.
Qed.

(** The running sum of a series without missing values. *)
Lemma cumsum_from_fin (a : R) (xs : list R) i :
  i < length xs →
  cumsum_from (Fin a) (Fin <$> xs) !! i = Some (Fin (a + Rsum (take (S i) xs))).
Proof.
  revert a i. induction xs as [|x xs IH]; intros a i Hi; [simpl in Hi; lia|].
  destruct i as [|i]; csimpl.
  - do 2 f_equal. unfold Rsum. simpl. lra.
  - simpl in Hi. rewrite IH by lia. do 2 f_equal. unfold Rsum. simpl. lra.
Qed.

Lemma cumsum_fin (xs : list R) i :
  i < length xs →
  cumsum (Fin <$> xs) !! i = Some (Fin (Rsum (take (S i) xs))).
Proof. intros H. unfold cumsum. rewrite cumsum_from_fin by done. do 2 f_equal. lra. Qed.

Lemma series_mul_fin (xs ys : list R) :
  series_mul (Fin <$> xs) (Fin <$> ys) = Fin <$> zip_with Rmult xs ys.
Proof.
  unfold series_mul. revert ys.
  induction xs as [|x xs IH]; intros [|y ys]; csimpl; try reflexivity.
  by rewrite IH.
Qed.

Lemma vwap_fin (cs vs : list R) i :
  length cs = length vs → i < length vs →
  vwap_series (Fin <$> cs) (Fin <$> vs) !! i =
    Some (fdiv (Fin (Rsum (take (S i) (zip_with Rmult cs vs))))
               (Fin (Rsum (take (S i) vs)))).
Proof.
  intros Hl Hi. unfold vwap_series, series_div. rewrite series_mul_fin.
  rewrite lookup_zip_with.
  rewrite (cumsum_fin (zip_with Rmult cs vs)).
  2:{ rewrite length_zip_with_l; lia. }
  rewrite cumsum_fin by done. reflexivity.
Qed.

Lemma Rsum_nonneg (l : list R) :
  Forall (λ v, 0 <= v)%R l → (0 <= Rsum l)%R.
Proof. induction 1; unfold Rsum in *; simpl; lra. Qed.

Lemma Rsum_zero_all (l : list R) :
  Forall (λ v, 0 <= v)%R l → Rsum l = 0%R → Forall (λ v, v = 0%R) l.
Proof.
  induction 1 as [|x l Hx Hl IH]; intros Hs; [constructor|].
  pose proof (Rsum_nonneg l Hl). unfold Rsum in *. simpl in Hs.
  constructor; [lra | apply IH; lra].
Qed.

Lemma Rsum_weighted_zero (cs vs : list R) :
  Forall (λ v, v = 0%R) vs → Rsum (zip_with Rmult cs vs) = 0%R.
Proof.
  intros H. revert cs. induction H as [|v vs -> _ IH]; intros [|c cs]; try reflexivity.
  csimpl. unfold Rsum in *. simpl. rewrite IH. lra.
Qed.

(** ** Running the monad *)

Lemma bind_run {A B} (m : M A) (k : A → M B) w :
  bind m k w = match m w with
               | (Ok a, w') => k a w'
               | (Raise e, w') => (Raise e, w')
               | (Stop, w') => (Stop, w')
               end.
Proof. reflexivity. Qed.

Lemma getitem_run data k w d : frames w !! data = Some d →
  getitem data k w =
    (match columns d !! k with Some c => Ok c | None => Raise (KeyError k) end, w).
Proof.
  intros H. unfold getitem, bind, get_frame. rewrite H.
  by destruct (columns d !! k).
Qed.

Lemma add_trace_run fig t w f : figures w !! fig = Some f →
  add_trace fig t w = (Ok tt, with_figures (<[fig := add_layers f [t]]> (figures w)) w).
Proof. intros H. unfold add_trace, modify_figure, bind, get_figure. by rewrite H. Qed.

Lemma setitem_run data k s w d : frames w !! data = Some d →
  setitem data k s w = (Ok tt, with_frames (<[data := df_set k s d]> (frames w)) w).
Proof. intros H. unfold setitem, bind, get_frame. by rewrite H. Qed.

Lemma add_layers_nil f : add_layers f [] = f.
Proof. destruct f. unfold add_layers. simpl. by rewrite app_nil_r. Qed.

Lemma add_layers_app f ts us : add_layers (add_layers f ts) us = add_layers f (ts ++ us).
Proof. unfold add_layers. simpl. by rewrite app_assoc. Qed.

Lemma world_eq w fr fg u :
  fr = frames w → fg = figures w → u = ui w →
  w = {| frames := fr; figures := fg; session_state := session_state w;
         files := files w; ui := u |}.
Proof. intros -> -> ->. by destruct w. Qed.

Ltac mstep H :=
  cbv beta iota zeta; rewrite bind_run;
  first [ rewrite (getitem_run _ _ _ _ H)
        | rewrite (add_trace_run _ _ _ _ H)
        | rewrite (setitem_run _ _ _ _ _ H) ].

Ltac world_done :=
  simpl; unfold st_error, emit, with_ui, with_figures, with_frames; simpl;
  f_equal; f_equal;
  rewrite ?add_layers_nil, ?app_nil_r;
  first [ reflexivity | symmetry; by apply insert_id ].

Lemma add_indicator_effect indicator data fig w d f :
  frames w !! data = Some d → figures w !! fig = Some f →
  add_indicator indicator data fig w = (Ok tt, after_indicator indicator data fig d f w).
Proof.
  intros Hd Hf.
  unfold add_indicator, try_except, after_indicator, indicator_layers, indicator_frame.
  destruct (String.eqb_spec indicator "20-Day SMA") as [->|_].
  { simpl String.eqb. cbv iota.
    mstep Hd. destruct (columns d !! "Close") as [close|]; [|world_done].
    mstep Hd. destruct (columns d !! "Date") as [x|]; [|world_done].
    rewrite (add_trace_run _ _ _ _ Hf). world_done. }
  destruct (String.eqb_spec indicator "20-Day EMA") as [->|_].
  { simpl String.eqb. cbv iota.
    mstep Hd. destruct (columns d !! "Close") as [close|]; [|world_done].
    mstep Hd. destruct (columns d !! "Date") as [x|]; [|world_done].
    rewrite (add_trace_run _ _ _ _ Hf). world_done. }
  destruct (String.eqb_spec indicator "20-Day Bollinger Bands") as [->|_].
  { simpl String.eqb. cbv iota.
    mstep Hd. destruct (columns d !! "Close") as [close|] eqn:Hc; [|world_done].
    mstep Hd. rewrite Hc.
    mstep Hd. destruct (columns d !! "Date") as [x|] eqn:Hx; [|world_done].
    mstep Hf.
    set (w1 := with_figures _ w).
    assert (Hd1 : frames w1 !! data = Some d) by done.
    assert (Hf1 : figures w1 !! fig =
                  Some (add_layers f
                          [Scatter x
                             (series_add (rolling_mean 20 close)
                                (scalar_mul 2 (rolling_std 20 close)))
                             "lines" "BB Upper"]))
      by apply lookup_insert_eq.
    mstep Hd1. rewrite Hx. cbv beta iota.
    rewrite (add_trace_run _ _ _ _ Hf1).
    subst w1. simpl. unfold with_figures. simpl. f_equal. f_equal.
    - symmetry. by apply insert_id.
    - rewrite insert_insert_eq, add_layers_app. reflexivity.
    - by rewrite app_nil_r. }
  destruct (String.eqb_spec indicator "VWAP") as [->|_].
  { simpl String.eqb. cbv iota.
    mstep Hd. destruct (columns d !! "Close") as [close|]; [|world_done].
    mstep Hd. destruct (columns d !! "Volume") as [volume|] eqn:Hv; [|world_done].
    mstep Hd. rewrite Hv. mstep Hd.
    set (d1 := df_set "VWAP" _ d).
    set (w1 := with_frames _ w).
    assert (Hd1 : frames w1 !! data = Some d1) by apply lookup_insert_eq.
    assert (Hf1 : figures w1 !! fig = Some f) by done.
    mstep Hd1.
    replace (columns d1 !! "Date") with (columns d !! "Date")
      by (symmetry; by apply lookup_insert_ne).
    destruct (columns d !! "Date") as [x|]; [|subst w1 d1; world_done].
    mstep Hd1.
    replace (columns d1 !! "VWAP") with (Some (vwap_series close volume))
      by (symmetry; apply lookup_insert_eq).
    cbv beta iota. rewrite (add_trace_run _ _ _ _ Hf1). subst w1 d1. world_done. }
  cbv beta iota. unfold ret. simpl. f_equal. apply world_eq.
  - by apply insert_id.
  - rewrite add_layers_nil. by apply insert_id.
  - by rewrite app_nil_r.
Qed.

Lemma indicator_frame_columns indicator d k :
  k ≠ "VWAP" → columns (indicator_frame indicator d) !! k = columns d !! k.
Proof.
  intros Hk. unfold indicator_frame.
  destruct (String.eqb indicator "VWAP"); [|done].
  destruct (columns d !! "Close"); [|done].
  destruct (columns d !! "Volume"); [|done].
  simpl. by rewrite lookup_insert_ne.
Qed.

Lemma indicator_layers_ext indicator d d' :
  (∀ k, k ≠ "VWAP" → columns d' !! k = columns d !! k) →
  indicator_layers indicator d' = indicator_layers indicator d.
Proof.
  intros H. unfold indicator_layers.
  by rewrite (H "Close"), (H "Date"), (H "Volume").
Qed.

Lemma add_indicators_effect selected data fig w d f :
  frames w !! data = Some d → figures w !! fig = Some f →
  add_indicators selected data fig w =
    (Ok tt,
     {| frames := <[data := frame_after selected d]> (frames w);
        figures := <[fig := add_layers f (selected_layers selected d)]> (figures w);
        session_state := session_state w;
        files := files w;
        ui := ui w ++ selected_errors selected d |}).
Proof.
  revert w d f. induction selected as [|ind rest IH]; intros w d f Hd Hf.
  - simpl. unfold ret. f_equal. apply world_eq.
    + by apply insert_id.
    + unfold selected_layers. simpl. rewrite add_layers_nil. by apply insert_id.
    + unfold selected_errors. simpl. by rewrite app_nil_r.
  - unfold add_indicators in *. cbn [for_each]. rewrite bind_run.
    rewrite (add_indicator_effect _ _ _ _ _ _ Hd Hf).
    rewrite (IH _ (indicator_frame ind d) (add_layers f (layers_or_none (indicator_layers ind d)))).
    2,3: apply lookup_insert_eq.
    unfold after_indicator. cbn [frames figures session_state files ui].
    f_equal. f_equal.
    + by rewrite insert_insert_eq.
    + rewrite insert_insert_eq, add_layers_app. do 2 f_equal.
      unfold selected_layers. cbn [flat_map]. f_equal.
      apply flat_map_ext. intros a. f_equal.
      apply indicator_layers_ext. intros k Hk. by apply indicator_frame_columns.
    + rewrite <- app_assoc. f_equal. unfold selected_errors. cbn [flat_map]. f_equal.
      apply flat_map_ext. intros a. f_equal.
      apply indicator_layers_ext. intros k Hk. by apply indicator_frame_columns.
Qed.

Lemma go_Figure_run ts w :
  go_Figure ts w =
    (Ok (fresh (dom (figures w))),
     with_figures (<[fresh (dom (figures w)) :=
                      {| traces := ts; fig_layout := mkLayout None None None None |}]>
                     (figures w)) w).
Proof. reflexivity. Qed.

Lemma update_layout_run fig g w f : figures w !! fig = Some f →
  update_layout fig g w =
    (Ok tt,
     with_figures
       (<[fig := {| traces := traces f; fig_layout := g (fig_layout f) |}]>
          (figures w)) w).
Proof. intros H. unfold update_layout, modify_figure, bind, get_figure. by rewrite H. Qed.

Lemma st_plotly_chart_run fig w f : figures w !! fig = Some f →
  st_plotly_chart fig w = (Ok tt, with_ui (ui w ++ [UPlotlyChart f]) w).
Proof. intros H. unfold st_plotly_chart, bind, get_figure. by rewrite H. Qed.

Lemma candlestick_layer_Some d t :
  candlestick_layer d = Some t →
  ∃ x o h l c, columns d !! "Date" = Some x ∧ columns d !! "Open" = Some o ∧
    columns d !! "High" = Some h ∧ columns d !! "Low" = Some l ∧
    columns d !! "Close" = Some c ∧ t = Candlestick x o h l c "Candlestick".
Proof.
  unfold candlestick_layer. intros H.
  destruct (columns d !! "Date") as [x|]; [|done].
  destruct (columns d !! "Open") as [o|]; [|done].
  destruct (columns d !! "High") as [h|]; [|done].
  destruct (columns d !! "Low") as [l|]; [|done].
  destruct (columns d !! "Close") as [c|]; [|done].
  simpl in H. injection H as <-. by exists x, o, h, l, c.
Qed.

Lemma candlestick_figure_effect e data w d t :
  frames w !! data = Some d → candlestick_layer d = Some t →
  candlestick_figure e data w =
    (Ok (fresh (dom (figures w))),
     {| frames := frames w;
        figures := <[fresh (dom (figures w)) :=
                       base_chart e t]> (figures w);
        session_state := session_state w;
        files := files w;
        ui := ui w ++ [UPlotlyChart (base_chart e t)] |}).
Proof.
  intros Hd Ht.
  apply candlestick_layer_Some in Ht
    as (x & o & h & l & c & Hx & Ho & Hh & Hl & Hc & ->).
  unfold candlestick_figure.
  mstep Hd. rewrite Hx. mstep Hd. rewrite Ho. mstep Hd. rewrite Hh.
  mstep Hd. rewrite Hl. mstep Hd. rewrite Hc.
  cbv beta iota. rewrite bind_run, go_Figure_run.
  set (fig := fresh (dom (figures w))).
  set (w1 := with_figures _ w).
  rewrite bind_run. rewrite (update_layout_run fig _ w1 _ (lookup_insert_eq _ _ _)).
  cbn [traces fig_layout xaxis_rangeslider_visible].
  set (w2 := with_figures _ w1).
  rewrite bind_run.
  rewrite (st_plotly_chart_run fig w2 _ (lookup_insert_eq _ _ _)).
  subst w2 w1. unfold with_figures, with_ui, ret. simpl. rewrite insert_insert_eq. reflexivity.
Qed.

Lemma build_chart_effect e data w d t :
  frames w !! data = Some d → candlestick_layer d = Some t →
  build_chart e data w =
    (Ok (fresh (dom (figures w))),
     {| frames := <[data := frame_after (indicators e) d]> (frames w);
        figures := <[fresh (dom (figures w)) := chart_of e d t]> (figures w);
        session_state := session_state w;
        files := files w;
        ui := ui w ++ chart_events e d t |}).
Proof.
  intros Hd Ht. unfold build_chart.
  rewrite bind_run, (candlestick_figure_effect _ _ _ _ _ Hd Ht).
  set (fig := fresh (dom (figures w))).
  rewrite bind_run.
  rewrite (add_indicators_effect _ data fig _ d (base_chart e t)).
  2: exact Hd. 2: apply lookup_insert_eq.
  cbn [frames figures session_state files ui].
  rewrite bind_run.
  erewrite update_layout_run by apply lookup_insert_eq.
  rewrite bind_run.
  erewrite st_plotly_chart_run by apply lookup_insert_eq.
  unfold with_figures, with_ui, ret, chart_of, add_layers. simpl.
  rewrite !insert_insert_eq, <- !app_assoc. reflexivity.
Qed.

(** ** Price series and their indicators *)

Lemma frame_of_price_series rows :
  Forall (λ b, 0 <= bar_volume b)%R rows → price_series (frame_of rows) rows.
Proof. intros H. split; try done. Qed.

Lemma day_volume_nonneg n : Forall (λ b, 0 <= bar_volume b)%R (sample_rows n).
Proof.
  unfold sample_rows. apply Forall_fmap, Forall_forall. intros k _. simpl. lra.
Qed.

Lemma sample_rows_length n : length (sample_rows n) = n.
Proof. unfold sample_rows. by rewrite length_fmap, length_seq. Qed.


Lemma rolling_mean_length w s : length (rolling_mean w s) = length s.
Proof.
  unfold rolling_mean, rolling, prep_values.
  by rewrite !length_fmap, length_seq.
Qed.

Lemma rolling_std_length w s : length (rolling_std w s) = length s.
Proof.
  unfold rolling_std, rolling, prep_values.
  by rewrite !length_fmap, length_seq.
Qed.

Lemma indicator_layers_sma d rows :
  price_series d rows →
  indicator_layers "20-Day SMA" d =
    inr [Scatter (fin_col bar_date rows) (rolling_mean 20 (fin_col bar_close rows))
           "lines" "SMA (20)"].
Proof. intros H. unfold indicator_layers. simpl. by rewrite (ps_close _ _ H), (ps_date _ _ H). Qed.

Lemma indicator_frame_other indicator d :
  indicator ≠ "VWAP" → indicator_frame indicator d = d.
Proof.
  intros H. unfold indicator_frame.
  destruct (String.eqb_spec indicator "VWAP"); [contradiction | reflexivity].
Qed.

Lemma fmul_fin x y : fmul (Fin x) (Fin y) = Fin (x * y).
Proof. reflexivity. Qed.


Lemma indicator_layers_bb d rows :
  price_series d rows →
  indicator_layers "20-Day Bollinger Bands" d =
    inr [Scatter (fin_col bar_date rows)
           (series_add (rolling_mean 20 (fin_col bar_close rows))
                       (scalar_mul 2 (rolling_std 20 (fin_col bar_close rows))))
           "lines" "BB Upper";
         Scatter (fin_col bar_date rows)
           (series_sub (rolling_mean 20 (fin_col bar_close rows))
                       (scalar_mul 2 (rolling_std 20 (fin_col bar_close rows))))
           "lines" "BB Lower"].
Proof. intros H. unfold indicator_layers. simpl. by rewrite (ps_close _ _ H), (ps_date _ _ H). Qed.

Lemma indicator_layers_vwap d rows :
  price_series d rows →
  indicator_layers "VWAP" d =
    inr [Scatter (fin_col bar_date rows)
           (vwap_series (fin_col bar_close rows) (fin_col bar_volume rows))
           "lines" "VWAP"].
Proof.
  intros H. unfold indicator_layers. simpl.
  by rewrite (ps_close _ _ H), (ps_volume _ _ H), (ps_date _ _ H).
Qed.

(** VWAP of a price series in the exact arithmetic of [fval]: at every
    index the ratio of the two running sums where the running volume
    is not zero, the missing marker where it is zero.  Used below only
    for the place of the missing marker. *)
Lemma vwap_running_ratio (rows : list bar) (i : nat) :
  Forall (λ b, 0 <= bar_volume b)%R rows →
  i < length rows →
  (cum_volume rows i ≠ 0%R →
   vwap_series (fin_col bar_close rows) (fin_col bar_volume rows) !! i =
     Some (Fin (cum_close_volume rows i / cum_volume rows i))) ∧
  (cum_volume rows i = 0%R →
   vwap_series (fin_col bar_close rows) (fin_col bar_volume rows) !! i = Some NaN).
Proof.
  intros Hv Hi. unfold fin_col.
  rewrite vwap_fin by (rewrite !length_fmap; done).
  fold (cum_volume rows i). fold (cum_close_volume rows i).
  split; intros H.
  - by rewrite fdiv_fin.
  - rewrite H. replace (cum_close_volume rows i) with 0%R.
    + simpl. by rewrite is_zero_true.
    + symmetry. unfold cum_close_volume.
      rewrite <- (take_drop (S i) (bar_volume <$> rows)) at 1.
      rewrite <- (take_drop (S i) (bar_close <$> rows)) at 1.
      assert (Hz : Forall (λ v, v = 0%R) (take (S i) (bar_volume <$> rows))).
      { apply Rsum_zero_all; [|exact H]. apply Forall_take, Forall_fmap.
        eapply Forall_impl; [exact Hv|]. done. }
      rewrite zip_with_app by (rewrite !length_take, !length_fmap; done).
      rewrite take_app_length'.
      2:{ rewrite length_zip_with_l; rewrite !length_take, !length_fmap; lia. }
      by apply Rsum_weighted_zero.
Qed.


(** ** The moving average and the bands *)








(** ** Values in binary64 *)
















(** ** The VWAP column and the validation of the next run *)

Ltac decide_reals_in E :=
  repeat match type of E with
         | context [Req_dec_T ?a ?b] =>
             destruct (Req_dec_T a b) as [?|?];
             [try (exfalso; lra) | try (exfalso; lra)]
         | context [Rlt_dec ?a ?b] =>
             destruct (Rlt_dec a b) as [?|?];
             [try (exfalso; lra) | try (exfalso; lra)]
         end.

(** C2.  Two runs over a series whose first day has volume 0, with VWAP
    selected.  The first run builds the chart, its VWAP is the missing
    marker at index 0 and a number at index 1, and the column is written
    into the frame the session holds.  The second run, on the same
    session and the same selection, finds a missing value in the stored
    frame: line 43 rejects the data and only the warning is shown. *)
Theorem vwap_nan_reaches_stored_series :
  let run1 := script (view ["VWAP"]) (session_with (frame_of zero_volume_rows)) in
  let run2 := script (view ["VWAP"]) run1.2 in
  df_any_null (frame_of zero_volume_rows) = false ∧
  run1.1 = Ok tt ∧
  (∃ b c, List.filter is_chart (ui run1.2) = [UPlotlyChart b; UPlotlyChart c] ∧
          trace_name <$> traces c = ["Candlestick"; "VWAP"]) ∧
  (∃ d v, frames run1.2 !! 0 = Some d ∧
          columns d !! "VWAP" = Some [NaN; Fin v] ∧
          df_any_null d = true) ∧
  session_state run1.2 !! "stock_data" = Some (Some 0) ∧
  run2.1 = Ok tt ∧
  ui run2.2 = ui run1.2 ++ [UWarning no_data_warning; UInfo click_fetch_info].
Proof.
  remember (script (view ["VWAP"]) (session_with (frame_of zero_volume_rows)))
    as r1 eqn:E.
  vm_compute in E. decide_reals_in E. subst r1. cbv zeta.
  split_and!; try (vm_compute; reflexivity).
  - eexists _, _. split; vm_compute; reflexivity.
  - eexists _, _. split_and!; vm_compute; reflexivity.
Qed.

(** ** The chart *)

Lemma candlestick_layer_price_series d rows :
  price_series d rows →
  candlestick_layer d =
    Some (Candlestick (fin_col bar_date rows) (fin_col bar_open rows)
            (fin_col bar_high rows) (fin_col bar_low rows)
            (fin_col bar_close rows) "Candlestick").
Proof.
  intros H. unfold candlestick_layer.
  by rewrite (ps_date _ _ H), (ps_open _ _ H), (ps_high _ _ H), (ps_low _ _ H),
    (ps_close _ _ H).
Qed.

Lemma indicator_layers_valid indicator d rows :
  price_series d rows →
  ∃ ts, indicator_layers indicator d = inr ts ∧
        trace_name <$> ts = layer_names indicator ∧
        forallb is_line ts = true.
Proof.
  intros H. unfold indicator_layers, layer_names.
  rewrite (ps_close _ _ H), (ps_volume _ _ H), (ps_date _ _ H).
  repeat case_match; eexists; split_and!; reflexivity.
Qed.

Lemma selected_layers_valid selected d rows :
  price_series d rows →
  trace_name <$> selected_layers selected d = flat_map layer_names selected ∧
  forallb is_line (selected_layers selected d) = true.
Proof.
  intros H. unfold selected_layers.
  induction selected as [|ind rest [IHn IHl]]; [done|].
  cbn [flat_map].
  destruct (indicator_layers_valid ind d rows H) as (ts & -> & Hn & Hl).
  cbn [layers_or_none]. split.
  - by rewrite fmap_app, Hn, IHn.
  - by rewrite forallb_app, Hl, IHl.
Qed.

(** C4.  The chart built from a price series: the candlestick layer
    comes first, then the line layers of the selected indicators in the
    order of the selection, one for SMA, EMA and VWAP and two for the
    Bollinger Bands; for 252 rows and the selection
    ["20-Day SMA"; "VWAP"] these are exactly the three layers
    candlestick, SMA line, VWAP line. *)
Theorem chart_layers_follow_selection (e : env) (w : world) (data : nat)
    (d : DataFrame) (rows : list bar) :
  frames w !! data = Some d →
  price_series d rows →
  ∃ fig w' c first overlays,
    build_chart e data w = (Ok fig, w') ∧
    figures w' !! fig = Some c ∧
    last (ui w') = Some (UPlotlyChart c) ∧
    traces c = first :: overlays ∧
    is_candlestick first = true ∧
    trace_name first = "Candlestick" ∧
    forallb is_line overlays = true ∧
    trace_name <$> overlays = flat_map layer_names (indicators e) ∧
    (length rows = 252 → indicators e = ["20-Day SMA"; "VWAP"] →
     length (traces c) = 3 ∧
     trace_name <$> traces c = ["Candlestick"; "SMA (20)"; "VWAP"]).
Proof.
  intros Hd Hps.
  pose proof (candlestick_layer_price_series d rows Hps) as Ht.
  destruct (selected_layers_valid (indicators e) d rows Hps) as [Hn Hl].
  eexists _, _, (chart_of e d _), _, _. split_and!.
  - by apply build_chart_effect.
  - cbn [figures]. apply lookup_insert_eq.
  - cbn [ui]. unfold chart_events. rewrite !app_assoc. apply last_snoc.
  - reflexivity.
  - reflexivity.
  - reflexivity.
  - exact Hl.
  - exact Hn.
  - intros _ Hsel. cbn [traces chart_of]. split.
    + rewrite <- (length_fmap trace_name). cbn [fmap list_fmap]. simpl.
      f_equal. change (list_fmap _ _ trace_name ?l) with (trace_name <$> l).
      rewrite Hn, Hsel. reflexivity.
    + rewrite fmap_cons, Hn, Hsel. reflexivity.
Qed.

Lemma chart_layers_follow_selection_witness :
  ∃ fig w' c first overlays,
    build_chart (view ["20-Day SMA"; "VWAP"]) 0
      (session_with (frame_of (sample_rows 252))) = (Ok fig, w') ∧
    figures w' !! fig = Some c ∧
    last (ui w') = Some (UPlotlyChart c) ∧
    traces c = first :: overlays ∧
    is_candlestick first = true ∧
    trace_name first = "Candlestick" ∧
    forallb is_line overlays = true ∧
    trace_name <$> overlays =
      flat_map layer_names (indicators (view ["20-Day SMA"; "VWAP"])) ∧
    (length (sample_rows 252) = 252 →
     indicators (view ["20-Day SMA"; "VWAP"]) = ["20-Day SMA"; "VWAP"] →
     length (traces c) = 3 ∧
     trace_name <$> traces c = ["Candlestick"; "SMA (20)"; "VWAP"]).
Proof.
  apply (chart_layers_follow_selection (view ["20-Day SMA"; "VWAP"])
           (session_with (frame_of (sample_rows 252))) 0
           (frame_of (sample_rows 252)) (sample_rows 252)).
  - reflexivity.
  - apply frame_of_price_series, day_volume_nonneg.
Defined.

(** ** Validation *)

(** C5 (as the code has it).  When the stored series is empty or holds a
    missing value, the run shows the warning of line 155 and the hint of
    line 156 and does nothing else: no frame and no figure is created
    or changed, so no indicator is computed and no chart is built.  The
    warning is the same text in both cases. *)
Theorem invalid_series_stops_before_chart (e : env) (w : world) (data : nat)
    (d : DataFrame) :
  session_state w !! "stock_data" = Some (Some data) →
  frames w !! data = Some d →
  df_empty d = true ∨ df_any_null d = true →
  dashboard e w =
    (Ok tt, with_ui (ui w ++ [UWarning no_data_warning; UInfo click_fetch_info]) w).
Proof.
  intros Hs Hd Hbad. unfold dashboard.
  rewrite bind_run. unfold session_contains. rewrite Hs.
  rewrite bool_decide_eq_true_2 by (by eexists).
  rewrite bind_run. unfold session_get. rewrite Hs.
  rewrite bind_run. unfold data_available. rewrite bind_run.
  unfold get_frame. rewrite Hd. unfold ret.
  replace (negb (df_empty d) && negb (df_any_null d)) with false.
  2:{ destruct Hbad as [-> | ->]; [reflexivity | by rewrite andb_false_r]. }
  unfold st_warning, st_info, emit, with_ui, bind. simpl. by rewrite <- app_assoc.
Qed.

Lemma invalid_series_stops_before_chart_witness :
  dashboard (view ["20-Day SMA"]) (session_with empty_frame) =
    (Ok tt,
     with_ui (ui (session_with empty_frame)
              ++ [UWarning no_data_warning; UInfo click_fetch_info])
             (session_with empty_frame)).
Proof.
  apply (invalid_series_stops_before_chart (view ["20-Day SMA"])
           (session_with empty_frame) 0 empty_frame).
  - reflexivity.
  - reflexivity.
  - left. reflexivity.
Defined.

(** The messages for an empty download and for a download with a missing
    close are the same list of messages. *)
Lemma validation_message_not_distinct :
  df_empty empty_frame = true ∧ df_any_null empty_frame = false ∧
  df_empty null_close_frame = false ∧ df_any_null null_close_frame = true ∧
  ui (script (fetch empty_frame) fresh_session).2 =
    [USuccess "Stock data loaded successfully!";
     UWarning no_data_warning; UInfo click_fetch_info] ∧
  ui (script (fetch null_close_frame) fresh_session).2 =
    ui (script (fetch empty_frame) fresh_session).2.
Proof. split_and!; vm_compute; reflexivity. Qed.

(** ** The analysis request *)

(** C6.  Four runs with "Run AI Analysis" pressed.  When the endpoint
    times out, when the renderer fails and when the reply has no
    message, the exception leaves the script: no handler turns it into
    a message.  When the reply is empty, the empty text is written as
    the result and nothing reports a failure. *)
Theorem analysis_failure_is_not_handled :
  let w := session_with (frame_of (sample_rows 1)) in
  let timeout := script (analyze (inr sample_png) (inl (OtherError "timed out"))) w in
  let norender := script (analyze (inl (OtherError "renderer failed")) (inr (reply "BUY"))) w in
  let malformed := script (analyze (inr sample_png) (inr ∅)) w in
  let silent := script (analyze (inr sample_png) (inr (reply ""))) w in
  timeout.1 = Raise (OtherError "timed out") ∧
  existsb is_failure_message (ui timeout.2) = false ∧
  norender.1 = Raise (OtherError "renderer failed") ∧
  existsb is_failure_message (ui norender.2) = false ∧
  malformed.1 = Raise (KeyError "message") ∧
  existsb is_failure_message (ui malformed.2) = false ∧
  silent.1 = Ok tt ∧
  existsb is_failure_message (ui silent.2) = false ∧
  last (ui silent.2) = Some (UWrite "").
Proof. cbv zeta; split_and!; vm_compute; reflexivity. Qed.

(** C7.  The temporary image after a run with "Run AI Analysis"
    pressed: when the endpoint times out the file is still there with
    the image in it, when the renderer fails the empty file is still
    there, and only the run that succeeds removes it. *)
Theorem temporary_image_is_left_behind :
  let w := session_with (frame_of (sample_rows 1)) in
  let timeout := script (analyze (inr sample_png) (inl (OtherError "timed out"))) w in
  let norender := script (analyze (inl (OtherError "renderer failed")) (inr (reply "BUY"))) w in
  let success := script (analyze (inr sample_png) (inr (reply "BUY"))) w in
  files w = ∅ ∧
  timeout.1 = Raise (OtherError "timed out") ∧
  files timeout.2 !! 0 = Some sample_png ∧
  norender.1 = Raise (OtherError "renderer failed") ∧
  files norender.2 !! 0 = Some [] ∧
  success.1 = Ok tt ∧
  files success.2 = ∅.
Proof. cbv zeta; split_and!; vm_compute; reflexivity. Qed.

(** ** Isolation of the indicators *)

(** C8.  The loop over any selection, on any frame, ends normally.
    Every selected indicator whose computation succeeds on the frame
    has all its layers in the figure, whatever happened to the others;
    every indicator whose computation raises adds no layer and leaves
    an error message. *)
Theorem indicator_failure_is_isolated (selected : list string)
    (data fig : nat) (w : world) (d : DataFrame) (f : Figure) :
  frames w !! data = Some d →
  figures w !! fig = Some f →
  ∃ w' c,
    add_indicators selected data fig w = (Ok tt, w') ∧
    figures w' !! fig = Some c ∧
    traces c = traces f ++ selected_layers selected d ∧
    ui w' = ui w ++ selected_errors selected d ∧
    ∀ indicator, indicator ∈ selected →
      match indicator_layers indicator d with
      | inr layers => ∀ t, t ∈ layers → t ∈ traces c
      | inl ex =>
          UError ("Error adding indicator " +:+ indicator +:+ ": " +:+ exn_str ex)
            ∈ ui w'
      end.
Proof.
  intros Hd Hf. eexists _, _. split_and!.
  - by apply add_indicators_effect.
  - cbn [figures]. apply lookup_insert_eq.
  - reflexivity.
  - reflexivity.
  - intros indicator Hin. cbn [traces add_layers ui].
    destruct (indicator_layers indicator d) as [ex|layers] eqn:E.
    + apply elem_of_app. right. apply list_elem_of_In, in_flat_map.
      exists indicator. split; [by apply list_elem_of_In|].
      rewrite E. simpl. by left.
    + intros t Ht. apply elem_of_app. right. apply list_elem_of_In, in_flat_map.
      exists indicator. split; [by apply list_elem_of_In|].
      rewrite E. simpl. by apply list_elem_of_In.
Qed.

Lemma indicator_failure_is_isolated_witness :
  ∃ w' c,
    add_indicators ["VWAP"; "20-Day SMA"] 0 0
      (session_with_chart no_volume_frame blank_figure) = (Ok tt, w') ∧
    figures w' !! 0 = Some c ∧
    traces c =
      traces blank_figure
      ++ selected_layers ["VWAP"; "20-Day SMA"] no_volume_frame ∧
    ui w' =
      ui (session_with_chart no_volume_frame blank_figure)
      ++ selected_errors ["VWAP"; "20-Day SMA"] no_volume_frame ∧
    ∀ indicator, indicator ∈ ["VWAP"; "20-Day SMA"] →
      match indicator_layers indicator no_volume_frame with
      | inr layers => ∀ t, t ∈ layers → t ∈ traces c
      | inl ex =>
          UError ("Error adding indicator " +:+ indicator +:+ ": " +:+ exn_str ex)
            ∈ ui w'
      end.
Proof.
  apply (indicator_failure_is_isolated ["VWAP"; "20-Day SMA"] 0 0
           (session_with_chart no_volume_frame blank_figure)
           no_volume_frame blank_figure).
  - reflexivity.
  - reflexivity.
Defined.

(** On the frame without a Volume column VWAP is left out with its
    message and the SMA layer is still added. *)
Lemma vwap_fails_sma_survives :
  trace_name <$> selected_layers ["VWAP"; "20-Day SMA"] no_volume_frame
    = ["SMA (20)"] ∧
  selected_errors ["VWAP"; "20-Day SMA"] no_volume_frame
    = [UError "Error adding indicator VWAP: 'Volume'"].
Proof. split; vm_compute; reflexivity. Qed.

(** ** Building twice *)

Lemma indicator_frame_vwap_absorbs indicator d :
  indicator_frame indicator (indicator_frame "VWAP" d) = indicator_frame "VWAP" d.
Proof.
  destruct (decide (indicator = "VWAP")) as [->|Hne];
    [|by apply indicator_frame_other].
  unfold indicator_frame at 1. simpl String.eqb. cbv iota.
  rewrite !indicator_frame_columns by done.
  unfold indicator_frame. simpl String.eqb. cbv iota.
  destruct (columns d !! "Close") as [close|]; [|done].
  destruct (columns d !! "Volume") as [volume|]; [|done].
  unfold df_set. simpl. by rewrite insert_insert_eq.
Qed.

Lemma frame_after_vwap_absorbs selected d :
  frame_after selected (indicator_frame "VWAP" d) = indicator_frame "VWAP" d.
Proof.
  unfold frame_after. induction selected as [|ind rest IH]; [done|].
  cbn [foldl]. by rewrite indicator_frame_vwap_absorbs.
Qed.

Lemma frame_after_cases selected d :
  frame_after selected d = d ∨ frame_after selected d = indicator_frame "VWAP" d.
Proof.
  induction selected as [|ind rest IH]; [by left|].
  unfold frame_after in *. cbn [foldl].
  destruct (decide (ind = "VWAP")) as [->|Hne].
  - right. apply frame_after_vwap_absorbs.
  - by rewrite indicator_frame_other.
Qed.

Lemma frame_after_idempotent selected d :
  frame_after selected (frame_after selected d) = frame_after selected d.
Proof.
  destruct (frame_after_cases selected d) as [H|H]; rewrite H.
  - exact H.
  - apply frame_after_vwap_absorbs.
Qed.

Lemma frame_after_columns selected d k :
  k ≠ "VWAP" → columns (frame_after selected d) !! k = columns d !! k.
Proof.
  intros Hk. destruct (frame_after_cases selected d) as [-> | ->]; [done|].
  by apply indicator_frame_columns.
Qed.

Lemma candlestick_layer_ext d d' :
  (∀ k, k ≠ "VWAP" → columns d' !! k = columns d !! k) →
  candlestick_layer d' = candlestick_layer d.
Proof.
  intros H. unfold candlestick_layer.
  by rewrite (H "Date"), (H "Open"), (H "High"), (H "Low"), (H "Close").
Qed.

Lemma selected_layers_ext selected d d' :
  (∀ k, k ≠ "VWAP" → columns d' !! k = columns d !! k) →
  selected_layers selected d' = selected_layers selected d.
Proof.
  intros H. unfold selected_layers. apply flat_map_ext. intros a.
  by rewrite (indicator_layers_ext a d d' H).
Qed.

Lemma selected_errors_ext selected d d' :
  (∀ k, k ≠ "VWAP" → columns d' !! k = columns d !! k) →
  selected_errors selected d' = selected_errors selected d.
Proof.
  intros H. unfold selected_errors. apply flat_map_ext. intros a.
  by rewrite (indicator_layers_ext a d d' H).
Qed.

(** C9.  Building the chart twice from the same price series and the
    same selection, the second time in the world the first build left:
    both builds end normally with the same chart (layers, their order,
    names and data, and layout), show the same output, and the second
    leaves the frames as the first left them. *)
Theorem build_chart_is_idempotent (e : env) (w : world) (data : nat)
    (d : DataFrame) (rows : list bar) :
  frames w !! data = Some d →
  price_series d rows →
  ∃ fig1 w1 fig2 w2 c events,
    build_chart e data w = (Ok fig1, w1) ∧
    build_chart e data w1 = (Ok fig2, w2) ∧
    figures w1 !! fig1 = Some c ∧
    figures w2 !! fig2 = Some c ∧
    ui w1 = ui w ++ events ∧
    ui w2 = ui w1 ++ events ∧
    frames w2 = frames w1.
Proof.
  intros Hd Hps.
  pose proof (candlestick_layer_price_series d rows Hps) as Ht.
  set (t := Candlestick _ _ _ _ _ _) in Ht.
  set (d1 := frame_after (indicators e) d).
  assert (Hext : ∀ k, k ≠ "VWAP" → columns d1 !! k = columns d !! k)
    by (intros k Hk; by apply frame_after_columns).
  assert (Ht1 : candlestick_layer d1 = Some t)
    by (by rewrite (candlestick_layer_ext d d1 Hext)).
  pose proof (build_chart_effect e data w d t Hd Ht) as H1.
  set (w1 := mkWorld _ _ _ _ _) in H1.
  assert (Hd1 : frames w1 !! data = Some d1) by apply lookup_insert_eq.
  pose proof (build_chart_effect e data w1 d1 t Hd1 Ht1) as H2.
  eexists _, w1, _, _, (chart_of e d t), (chart_events e d t).
  split_and!; [exact H1 | exact H2 | ..].
  - apply lookup_insert_eq.
  - cbn [figures]. rewrite lookup_insert_eq. f_equal.
    unfold chart_of. by rewrite (selected_layers_ext _ d d1 Hext).
  - reflexivity.
  - cbn [ui]. f_equal. unfold chart_events, chart_of.
    by rewrite (selected_layers_ext _ d d1 Hext), (selected_errors_ext _ d d1 Hext).
  - subst w1. cbn [frames]. rewrite insert_insert_eq. subst d1.
    by rewrite frame_after_idempotent.
Qed.

Lemma build_chart_is_idempotent_witness :
  ∃ fig1 w1 fig2 w2 c events,
    build_chart (view ["VWAP"; "20-Day SMA"]) 0
      (session_with (frame_of (sample_rows 30))) = (Ok fig1, w1) ∧
    build_chart (view ["VWAP"; "20-Day SMA"]) 0 w1 = (Ok fig2, w2) ∧
    figures w1 !! fig1 = Some c ∧
    figures w2 !! fig2 = Some c ∧
    ui w1 = ui (session_with (frame_of (sample_rows 30))) ++ events ∧
    ui w2 = ui w1 ++ events ∧
    frames w2 = frames w1.
Proof.
  apply (build_chart_is_idempotent (view ["VWAP"; "20-Day SMA"])
           (session_with (frame_of (sample_rows 30))) 0
           (frame_of (sample_rows 30)) (sample_rows 30)).
  - reflexivity.
  - apply frame_of_price_series, day_volume_nonneg.
Defined.

(** ** What the indicators write *)

(** C10.  With [data] the frame the session holds: adding the SMA, the
    EMA or the Bollinger Bands leaves the session and every frame as
    they were; adding VWAP puts a [VWAP] column with the series of line
    110 into the frame the session holds, keeps its other columns, and
    changes the store when the frame had no such column. *)
Theorem only_vwap_writes_to_stored_series (w : world) (data fig : nat)
    (d : DataFrame) (f : Figure) :
  session_state w !! "stock_data" = Some (Some data) →
  frames w !! data = Some d →
  figures w !! fig = Some f →
  (∀ indicator,
     indicator ∈ ["20-Day SMA"; "20-Day EMA"; "20-Day Bollinger Bands"] →
     ∃ w', add_indicator indicator data fig w = (Ok tt, w') ∧
           session_state w' = session_state w ∧
           frames w' = frames w) ∧
  (∀ close volume,
     columns d !! "Close" = Some close →
     columns d !! "Volume" = Some volume →
     ∃ w' d',
       add_indicator "VWAP" data fig w = (Ok tt, w') ∧
       session_state w' !! "stock_data" = Some (Some data) ∧
       frames w' !! data = Some d' ∧
       d' = df_set "VWAP" (vwap_series close volume) d ∧
       columns d' !! "VWAP" = Some (vwap_series close volume) ∧
       (∀ k, k ≠ "VWAP" → columns d' !! k = columns d !! k) ∧
       (columns d !! "VWAP" = None → frames w' ≠ frames w)).
Proof.
  intros Hs Hd Hf. split.
  - intros indicator Hin. eexists. split; [by apply add_indicator_effect|].
    split; [reflexivity|]. cbn [frames after_indicator].
    rewrite indicator_frame_other; [by apply insert_id|].
    intros ->. repeat (apply elem_of_cons in Hin as [Hin|Hin]; [discriminate|]).
    by apply elem_of_nil in Hin.
  - intros close volume Hc Hv. eexists _, _. split; [by apply add_indicator_effect|].
    assert (Hfr : indicator_frame "VWAP" d = df_set "VWAP" (vwap_series close volume) d).
    { unfold indicator_frame. simpl String.eqb. cbv iota. by rewrite Hc, Hv. }
    split_and!.
    + exact Hs.
    + cbn [frames after_indicator]. apply lookup_insert_eq.
    + exact Hfr.
    + rewrite Hfr. apply lookup_insert_eq.
    + intros k Hk. by apply indicator_frame_columns.
    + intros Hnone Heq. cbn [frames after_indicator] in Heq.
      assert (Hl : (<[data := indicator_frame "VWAP" d]> (frames w)) !! data = Some d)
        by (by rewrite Heq).
      rewrite lookup_insert_eq, Hfr in Hl. injection Hl as Hl.
      assert (Hv' : columns (df_set "VWAP" (vwap_series close volume) d) !! "VWAP" = None)
        by (by rewrite Hl).
      unfold df_set in Hv'. simpl in Hv'. by rewrite lookup_insert_eq in Hv'.
Qed.

Lemma only_vwap_writes_to_stored_series_witness :
  (∀ indicator,
     indicator ∈ ["20-Day SMA"; "20-Day EMA"; "20-Day Bollinger Bands"] →
     ∃ w', add_indicator indicator 0 0
             (session_with_chart (frame_of (sample_rows 2)) blank_figure)
           = (Ok tt, w') ∧
           session_state w' =
             session_state (session_with_chart (frame_of (sample_rows 2)) blank_figure) ∧
           frames w' =
             frames (session_with_chart (frame_of (sample_rows 2)) blank_figure)) ∧
  (∀ close volume,
     columns (frame_of (sample_rows 2)) !! "Close" = Some close →
     columns (frame_of (sample_rows 2)) !! "Volume" = Some volume →
     ∃ w' d',
       add_indicator "VWAP" 0 0
         (session_with_chart (frame_of (sample_rows 2)) blank_figure) = (Ok tt, w') ∧
       session_state w' !! "stock_data" = Some (Some 0) ∧
       frames w' !! 0 = Some d' ∧
       d' = df_set "VWAP" (vwap_series close volume) (frame_of (sample_rows 2)) ∧
       columns d' !! "VWAP" = Some (vwap_series close volume) ∧
       (∀ k, k ≠ "VWAP" →
             columns d' !! k = columns (frame_of (sample_rows 2)) !! k) ∧
       (columns (frame_of (sample_rows 2)) !! "VWAP" = None →
        frames w' ≠
          frames (session_with_chart (frame_of (sample_rows 2)) blank_figure))).
Proof.
  apply (only_vwap_writes_to_stored_series
           (session_with_chart (frame_of (sample_rows 2)) blank_figure) 0 0
           (frame_of (sample_rows 2)) blank_figure).
  - reflexivity.
  - reflexivity.
  - reflexivity.
Defined.

(** * Further properties *)

(** ** Validation, summary and conversion *)

Lemma existsb_isnull (c : list fval) : existsb isnull c = true ↔ NaN ∈ c.
Proof.
  rewrite existsb_exists. split.
  - intros (x & Hin & Hx). destruct x; try discriminate. by apply list_elem_of_In.
  - intros H. exists NaN. split; [by apply list_elem_of_In | reflexivity].
Qed.

Lemma df_any_null_true d :
  df_any_null d = true ↔ ∃ k c, columns d !! k = Some c ∧ NaN ∈ c.
Proof.
  unfold df_any_null. rewrite existsb_exists. split.
  - intros ([k c] & Hin & Hx). exists k, c. split.
    + by apply elem_of_map_to_list, list_elem_of_In.
    + by apply existsb_isnull.
  - intros (k & c & Hk & Hc). exists (k, c). split.
    + by apply list_elem_of_In, elem_of_map_to_list.
    + by apply existsb_isnull.
Qed.

Lemma df_any_null_false d :
  df_any_null d = false ↔ ∀ k c, columns d !! k = Some c → NaN ∉ c.
Proof.
  split.
  - intros H k c Hk Hc. assert (df_any_null d = true) by (apply df_any_null_true; eauto).
    congruence.
  - intros H. destruct (df_any_null d) eqn:E; [|done].
    apply df_any_null_true in E as (k & c & Hk & Hc). by destruct (H k c Hk).
Qed.

Lemma df_empty_false d :
  df_empty d = false ↔ 0 < nrows d ∧ columns d ≠ ∅.
Proof.
  unfold df_empty. rewrite orb_false_iff, !Nat.eqb_neq. split.
  - intros [Hn Hs]. split; [lia|]. intros Hc. apply Hs. rewrite Hc.
    apply map_size_empty.
  - intros [Hn Hc]. split; [lia|]. intros Hs. apply Hc.
    by apply map_size_empty_iff.
Qed.

Lemma show_data_effect data w d o :
  frames w !! data = Some d → columns d !! "Open" = Some o →
  show_data data w = (Ok tt, with_ui (ui w ++ show_events d) w).
Proof.
  intros Hd Ho. unfold show_data.
  rewrite bind_run, (getitem_run _ _ _ _ Hd), Ho.
  unfold st_write, emit, bind, get_frame, with_ui. simpl. rewrite Hd. simpl.
  rewrite Hd. simpl. by rewrite <- !app_assoc.
Qed.

Lemma df_set_id k c d : columns d !! k = Some c → df_set k c d = d.
Proof. intros H. destruct d as [n cols]. unfold df_set. simpl in *. by rewrite insert_id. Qed.

Lemma convert_column_effect data k w d c :
  frames w !! data = Some d → columns d !! k = Some c →
  convert_column data k w = (Ok tt, w).
Proof.
  intros Hd Hk. unfold convert_column.
  rewrite bind_run, (getitem_run _ _ _ _ Hd), Hk.
  unfold to_numeric. rewrite bind_run. unfold ret.
  rewrite (setitem_run _ _ _ _ _ Hd), (df_set_id _ _ _ Hk).
  f_equal. destruct w. unfold with_frames. simpl in *. by rewrite insert_id.
Qed.

Lemma convert_column_missing data k w d :
  frames w !! data = Some d → columns d !! k = None →
  convert_column data k w = (Raise (KeyError k), w).
Proof.
  intros Hd Hk. unfold convert_column.
  by rewrite bind_run, (getitem_run _ _ _ _ Hd), Hk.
Qed.

Lemma convert_numeric_effect data w d o h l c v :
  frames w !! data = Some d →
  columns d !! "Open" = Some o → columns d !! "High" = Some h →
  columns d !! "Low" = Some l → columns d !! "Close" = Some c →
  columns d !! "Volume" = Some v →
  convert_numeric data w = (Ok tt, w).
Proof.
  intros Hd Ho Hh Hl Hc Hv. unfold convert_numeric, try_except.
  rewrite bind_run, (convert_column_effect _ _ _ _ _ Hd Ho).
  rewrite bind_run, (convert_column_effect _ _ _ _ _ Hd Hh).
  rewrite bind_run, (convert_column_effect _ _ _ _ _ Hd Hl).
  rewrite bind_run, (convert_column_effect _ _ _ _ _ Hd Hc).
  by rewrite (convert_column_effect _ _ _ _ _ Hd Hv).
Qed.

Lemma convert_numeric_missing data w d k :
  frames w !! data = Some d →
  k ∈ ["Open"; "High"; "Low"; "Close"; "Volume"] →
  columns d !! k = None →
  ∃ k', k' ∈ ["Open"; "High"; "Low"; "Close"; "Volume"] ∧
        columns d !! k' = None ∧
        convert_numeric data w = (Raise (KeyError k'), w).
Proof.
  intros Hd Hin Hk. unfold convert_numeric, try_except.
  destruct (columns d !! "Open") as [o|] eqn:Ho.
  2:{ exists "Open". split_and!; [repeat constructor | done |].
      by rewrite bind_run, (convert_column_missing _ _ _ _ Hd Ho). }
  rewrite bind_run, (convert_column_effect _ _ _ _ _ Hd Ho).
  destruct (columns d !! "High") as [h|] eqn:Hh.
  2:{ exists "High". split_and!; [repeat constructor | done |].
      by rewrite bind_run, (convert_column_missing _ _ _ _ Hd Hh). }
  rewrite bind_run, (convert_column_effect _ _ _ _ _ Hd Hh).
  destruct (columns d !! "Low") as [l|] eqn:Hl.
  2:{ exists "Low". split_and!; [repeat constructor | done |].
      by rewrite bind_run, (convert_column_missing _ _ _ _ Hd Hl). }
  rewrite bind_run, (convert_column_effect _ _ _ _ _ Hd Hl).
  destruct (columns d !! "Close") as [c|] eqn:Hc.
  2:{ exists "Close". split_and!; [repeat constructor | done |].
      by rewrite bind_run, (convert_column_missing _ _ _ _ Hd Hc). }
  rewrite bind_run, (convert_column_effect _ _ _ _ _ Hd Hc).
  destruct (columns d !! "Volume") as [v|] eqn:Hv.
  2:{ exists "Volume". split_and!; [repeat constructor | done |].
      by rewrite (convert_column_missing _ _ _ _ Hd Hv). }
  exfalso. repeat (apply elem_of_cons in Hin as [->|Hin]; [congruence|]).
  by apply elem_of_nil in Hin.
Qed.

(** ** The analysis block *)

Lemma fresh_file_absent (w : world) : files w !! fresh (dom (files w)) = None.
Proof. apply not_elem_of_dom, is_fresh. Qed.

(** When the renderer returns an image and the endpoint answers with a
    message that has a content, the analysis block sends the request
    built from exactly that image, writes the heading and the content,
    and leaves the files as it found them: the temporary file is
    created and removed within the block. *)
Theorem analysis_shows_reply_and_cleans_up (e : env) (fig : nat) (w : world)
    (f : Figure) (png : list Z) (response : gmap string (gmap string string))
    (message : gmap string string) (text : string) :
  figures w !! fig = Some f →
  write_image e f = inr png →
  ollama_chat e "llama3.2-vision" (analysis_request png) = inr response →
  response !! "message" = Some message →
  message !! "content" = Some text →
  run_analysis e fig w =
    (Ok tt,
     with_ui (ui w ++ [USpinner "Analyzing the chart, please wait...";
                       UWrite "**AI Analysis Results:**";
                       UWrite text]) w).
Proof.
  intros Hf Himg Hchat Hmsg Htext. unfold run_analysis.
  unfold bind at 1. unfold emit at 1. cbv beta iota.
  unfold bind at 1. unfold named_temporary_file. cbv beta iota zeta.
  set (p := fresh (dom (files w))).
  unfold bind at 1. unfold get_figure at 1. cbn [figures with_files with_ui].
  rewrite Hf. rewrite Himg. unfold lift.
  unfold bind at 1. unfold ret at 1. cbv beta iota.
  unfold bind at 1. unfold write_file at 1. cbv beta iota.
  unfold bind at 1. unfold read_file at 1. cbn [files with_files with_ui].
  rewrite lookup_insert_eq.
  fold (analysis_request png). rewrite Hchat.
  unfold bind at 1. unfold ret at 1. cbv beta iota.
  unfold bind at 1. unfold st_write at 1, emit at 1. cbv beta iota.
  unfold bind at 1. unfold dict_get at 1. rewrite Hmsg. unfold ret at 1. cbv beta iota.
  unfold bind at 1. unfold dict_get at 1. rewrite Htext. unfold ret at 1. cbv beta iota.
  unfold bind at 1. unfold st_write at 1, emit at 1. cbv beta iota.
  unfold os_remove. cbn [files with_files with_ui ui].
  rewrite lookup_insert_eq. f_equal.
  unfold with_files, with_ui. cbn.
  rewrite insert_insert_eq, delete_insert_eq.
  rewrite delete_id by apply fresh_file_absent.
  rewrite <- !app_assoc. by destruct w.
Qed.

(** Whatever the renderer and the endpoint do, the analysis block
    changes no frame, no figure and no session entry, and the only
    path it can create, change or remove is the new temporary one:
    every other file is as before. *)
Theorem analysis_leaves_session_alone (e : env) (fig : nat) (w : world) :
  let w' := (run_analysis e fig w).2 in
  frames w' = frames w ∧
  figures w' = figures w ∧
  session_state w' = session_state w ∧
  ∀ p, p ≠ fresh (dom (files w)) → files w' !! p = files w !! p.
Proof.
  cbv zeta. unfold run_analysis, bind, emit, named_temporary_file, get_figure,
    lift, write_file, read_file, st_write, emit, dict_get, os_remove, ret, raise.
  cbn [files figures frames session_state ui with_files with_ui].
  set (p0 := fresh (dom (files w))).
  destruct (figures w !! fig) as [f|]; cbn.
  2:{ split_and!; try done. intros p Hp. by rewrite lookup_insert_ne. }
  destruct (write_image e f) as [ex|png]; cbn.
  { split_and!; try done. intros p Hp. by rewrite lookup_insert_ne. }
  rewrite lookup_insert_eq.
  destruct (ollama_chat e _ _) as [ex|response]; cbn.
  { split_and!; try done. intros p Hp. by rewrite !lookup_insert_ne. }
  destruct (response !! "message") as [message|]; cbn.
  2:{ split_and!; try done. intros p Hp. by rewrite !lookup_insert_ne. }
  destruct (message !! "content") as [text|]; cbn.
  2:{ split_and!; try done. intros p Hp. by rewrite !lookup_insert_ne. }
  rewrite lookup_insert_eq. cbn.
  split_and!; try done. intros p Hp.
  by rewrite lookup_delete_ne, !lookup_insert_ne.
Qed.

(** ** Fetching *)

(** When the download raises, the run shows "Error fetching data: ..."
    with the text of the exception and stops there: the dashboard is
    not run, and frames, figures, session and files are as before, so a
    series stored earlier is kept. *)
Theorem failed_fetch_stops_and_keeps_session (e : env) (w : world) (ex : exn) :
  fetch_button e = true →
  yf_download e = inl ex →
  script e w =
    (Stop, with_ui (ui w ++ [UError ("Error fetching data: " +:+ exn_str ex)]) w).
Proof.
  intros Hb Hdl. unfold script, fetch_data. rewrite Hb.
  unfold bind at 1. unfold try_except. unfold bind at 1. rewrite Hdl.
  unfold lift, raise. cbv beta iota. unfold any_Exception. cbv iota.
  unfold bind, st_error, emit, st_stop. reflexivity.
Qed.

Lemma dashboard_invalid_effect (e : env) (w : world) (data : nat) (d : DataFrame) :
  session_state w !! "stock_data" = Some (Some data) →
  frames w !! data = Some d →
  df_empty d = true ∨ df_any_null d = true →
  dashboard e w =
    (Ok tt, with_ui (ui w ++ [UWarning no_data_warning; UInfo click_fetch_info]) w).
Proof.
  intros Hs Hd Hbad. unfold dashboard.
  rewrite bind_run. unfold session_contains. rewrite Hs.
  rewrite bool_decide_eq_true_2 by (by eexists).
  rewrite bind_run. unfold session_get. rewrite Hs.
  rewrite bind_run. unfold data_available. rewrite bind_run.
  unfold get_frame. rewrite Hd. unfold ret.
  replace (negb (df_empty d) && negb (df_any_null d)) with false.
  2:{ destruct Hbad as [-> | ->]; [reflexivity | by rewrite andb_false_r]. }
  unfold st_warning, st_info, emit, with_ui, bind. simpl. by rewrite <- app_assoc.
Qed.

Lemma fresh_frame_absent (w : world) : frames w !! fresh (dom (frames w)) = None.
Proof. apply not_elem_of_dom, is_fresh. Qed.

(** The download is stored before it is validated: when it is empty or
    has a missing value, the session entry is nevertheless replaced by
    the new frame (a new object; the frames stored before are not
    changed), the success message is shown, and then the warning. *)
Theorem invalid_download_replaces_stored_series (e : env) (w : world)
    (d : DataFrame) :
  fetch_button e = true →
  yf_download e = inr d →
  df_empty d = true ∨ df_any_null d = true →
  ∃ l w',
    script e w = (Ok tt, w') ∧
    frames w !! l = None ∧
    session_state w' !! "stock_data" = Some (Some l) ∧
    frames w' = <[l := d]> (frames w) ∧
    figures w' = figures w ∧
    ui w' = ui w ++ [USuccess "Stock data loaded successfully!";
                     UWarning no_data_warning; UInfo click_fetch_info].
Proof.
  intros Hb Hdl Hbad. exists (fresh (dom (frames w))). eexists.
  split; [|split; [apply fresh_frame_absent|]].
  - unfold script, fetch_data. rewrite Hb.
    unfold bind at 1. unfold try_except. unfold bind at 1. rewrite Hdl.
    unfold lift, ret. cbv beta iota.
    unfold bind at 1. unfold new_frame. cbv beta iota zeta.
    unfold bind at 1. unfold session_set. cbv beta iota.
    unfold st_success, emit. cbv beta iota.
    eapply (dashboard_invalid_effect e _ (fresh (dom (frames w))) d); [| |exact Hbad].
    + cbn. apply lookup_insert_eq.
    + cbn. apply lookup_insert_eq.
  - cbn. rewrite lookup_insert_eq. split_and!; try done.
    by rewrite <- app_assoc.
Qed.

(** Line 43 never raises on a stored frame, and accepts it exactly when
    it has a row, has a column and no cell is the missing marker;
    nothing else about the cells is tested. *)
Theorem gate_accepts_exactly_complete_frames (w : world) (data : nat)
    (d : DataFrame) :
  frames w !! data = Some d →
  ∃ b, data_available (Some data) w = (Ok b, w) ∧
       (b = true ↔
        0 < nrows d ∧ columns d ≠ ∅ ∧
        ∀ k c, columns d !! k = Some c → NaN ∉ c).
Proof.
  intros Hd. eexists. split.
  - unfold data_available, bind, get_frame, ret. by rewrite Hd.
  - rewrite andb_true_iff, !negb_true_iff, df_empty_false, df_any_null_false.
    tauto.
Qed.

(** ** A valid run *)

Lemma price_series_not_empty d rows :
  price_series d rows → 0 < length rows → df_empty d = false.
Proof.
  intros Hps Hn. apply df_empty_false. split.
  - by rewrite (ps_nrows _ _ Hps).
  - intros Hc. pose proof (ps_date _ _ Hps) as Hd. by rewrite Hc in Hd.
Qed.

(** A stored price series with at least one row and no missing value
    always reaches the chart, whatever the selection: the run writes
    the summary of lines 45-52, leaves the six columns as they are,
    shows the candlestick chart and the chart with the indicators, and
    then either ends or, when "Run AI Analysis" was pressed, continues
    with the analysis block on that chart. *)
Theorem valid_series_reaches_chart (e : env) (w : world) (data : nat)
    (d : DataFrame) (rows : list bar) :
  session_state w !! "stock_data" = Some (Some data) →
  frames w !! data = Some d →
  price_series d rows →
  0 < length rows →
  df_any_null d = false →
  ∃ t w1,
    candlestick_layer d = Some t ∧
    frames w1 = <[data := frame_after (indicators e) d]> (frames w) ∧
    figures w1 = <[fresh (dom (figures w)) := chart_of e d t]> (figures w) ∧
    session_state w1 = session_state w ∧
    files w1 = files w ∧
    ui w1 = ui w ++ show_events d ++ chart_events e d t
                 ++ [USubheader "AI-Powered Analysis"] ∧
    dashboard e w =
      if analysis_button e
      then run_analysis e (fresh (dom (figures w))) w1
      else (Ok tt, w1).
Proof.
  intros Hs Hd Hps Hn Hnull.
  pose proof (candlestick_layer_price_series d rows Hps) as Ht.
  eexists _, _. split; [exact Ht|].
  split_and!; [| | | | |].
  6:{ unfold dashboard.
      rewrite bind_run. unfold session_contains. rewrite Hs.
      rewrite bool_decide_eq_true_2 by (by eexists).
      rewrite bind_run. unfold session_get. rewrite Hs.
      rewrite bind_run. unfold data_available. rewrite bind_run.
      unfold get_frame. rewrite Hd. unfold ret.
      rewrite (price_series_not_empty d rows Hps Hn), Hnull.
      cbn [negb andb].
      rewrite bind_run, (show_data_effect _ _ _ _ Hd (ps_open _ _ Hps)).
      rewrite bind_run.
      erewrite (convert_numeric_effect data _ d)
        by first [exact Hd | apply (ps_open _ _ Hps) | apply (ps_high _ _ Hps)
                 | apply (ps_low _ _ Hps) | apply (ps_close _ _ Hps)
                 | apply (ps_volume _ _ Hps)].
      rewrite bind_run.
      erewrite (build_chart_effect e data _ d) by first [exact Hd | exact Ht].
      rewrite bind_run. unfold st_subheader, emit.
      cbn [frames figures session_state files ui with_ui].
      unfold ret. destruct (analysis_button e); reflexivity. }
  all: cbn [frames figures session_state files ui with_ui]; try reflexivity.
  by rewrite <- !app_assoc.
Qed.

(** ** Columns of the chart *)

(** When the frame lacks one of the columns of the candlestick, building
    the chart raises the [KeyError] of the first one missing in the
    order Date, Open, High, Low, Close: the columns before it in that
    order are all present.  Nothing is created or shown. *)
Theorem chart_needs_candlestick_columns (e : env) (w : world) (data : nat)
    (d : DataFrame) :
  frames w !! data = Some d →
  candlestick_layer d = None →
  ∃ before k after,
    ["Date"; "Open"; "High"; "Low"; "Close"] = before ++ k :: after ∧
    (∀ k', k' ∈ before → is_Some (columns d !! k')) ∧
    columns d !! k = None ∧
    build_chart e data w = (Raise (KeyError k), w).
Proof.
  intros Hd Hnone. unfold build_chart, candlestick_figure.
  unfold candlestick_layer in Hnone.
  destruct (columns d !! "Date") as [x|] eqn:Hx.
  2:{ exists [], "Date", ["Open"; "High"; "Low"; "Close"].
      split_and!; [done | by intros k' ?%elem_of_nil | done |].
      by rewrite !bind_run, (getitem_run _ _ _ _ Hd), Hx. }
  destruct (columns d !! "Open") as [o|] eqn:Ho.
  2:{ exists ["Date"], "Open", ["High"; "Low"; "Close"].
      split_and!; [done | | done |].
      { intros k' Hk. repeat (apply elem_of_cons in Hk as [->|Hk]; [by eexists|]).
        by apply elem_of_nil in Hk. }
      rewrite !bind_run, (getitem_run _ _ _ _ Hd), Hx.
      by rewrite bind_run, (getitem_run _ _ _ _ Hd), Ho. }
  destruct (columns d !! "High") as [h|] eqn:Hh.
  2:{ exists ["Date"; "Open"], "High", ["Low"; "Close"].
      split_and!; [done | | done |].
      { intros k' Hk. repeat (apply elem_of_cons in Hk as [->|Hk]; [by eexists|]).
        by apply elem_of_nil in Hk. }
      rewrite !bind_run, (getitem_run _ _ _ _ Hd), Hx.
      rewrite bind_run, (getitem_run _ _ _ _ Hd), Ho.
      by rewrite bind_run, (getitem_run _ _ _ _ Hd), Hh. }
  destruct (columns d !! "Low") as [l|] eqn:Hl.
  2:{ exists ["Date"; "Open"; "High"], "Low", ["Close"].
      split_and!; [done | | done |].
      { intros k' Hk. repeat (apply elem_of_cons in Hk as [->|Hk]; [by eexists|]).
        by apply elem_of_nil in Hk. }
      rewrite !bind_run, (getitem_run _ _ _ _ Hd), Hx.
      rewrite bind_run, (getitem_run _ _ _ _ Hd), Ho.
      rewrite bind_run, (getitem_run _ _ _ _ Hd), Hh.
      by rewrite bind_run, (getitem_run _ _ _ _ Hd), Hl. }
  destruct (columns d !! "Close") as [c|] eqn:Hc; [discriminate|].
  exists ["Date"; "Open"; "High"; "Low"], "Close", [].
  split_and!; [done | | done |].
  { intros k' Hk. repeat (apply elem_of_cons in Hk as [->|Hk]; [by eexists|]).
    by apply elem_of_nil in Hk. }
  rewrite !bind_run, (getitem_run _ _ _ _ Hd), Hx.
  rewrite bind_run, (getitem_run _ _ _ _ Hd), Ho.
  rewrite bind_run, (getitem_run _ _ _ _ Hd), Hh.
  rewrite bind_run, (getitem_run _ _ _ _ Hd), Hl.
  by rewrite bind_run, (getitem_run _ _ _ _ Hd), Hc.
Qed.

(** ** VWAP and the next run *)

Lemma frame_after_vwap selected d :
  "VWAP" ∈ selected → frame_after selected d = indicator_frame "VWAP" d.
Proof.
  revert d. induction selected as [|ind rest IH]; intros d Hin.
  - by apply elem_of_nil in Hin.
  - unfold frame_after. cbn [foldl]. fold (frame_after rest (indicator_frame ind d)).
    destruct (decide (ind = "VWAP")) as [->|Hne].
    + apply frame_after_vwap_absorbs.
    + rewrite indicator_frame_other by done. apply IH.
      apply elem_of_cons in Hin as [Hin|Hin]; [congruence | done].
Qed.

Lemma indicator_frame_vwap_price_series d rows :
  price_series d rows →
  indicator_frame "VWAP" d =
    df_set "VWAP" (vwap_series (fin_col bar_close rows) (fin_col bar_volume rows)) d.
Proof.
  intros H. unfold indicator_frame. simpl String.eqb. cbv iota.
  by rewrite (ps_close _ _ H), (ps_volume _ _ H).
Qed.

(** For every price series whose first day has volume 0 and every
    selection that contains VWAP: building the chart succeeds, and in
    the world it leaves the next run, with any inputs, shows only the
    warning of line 155, because the stored frame now holds a missing
    value. *)
Theorem zero_first_volume_fails_next_validation (e e' : env) (w : world)
    (data : nat) (d : DataFrame) (b : bar) (rest : list bar) :
  session_state w !! "stock_data" = Some (Some data) →
  frames w !! data = Some d →
  price_series d (b :: rest) →
  bar_volume b = 0%R →
  "VWAP" ∈ indicators e →
  ∃ fig w',
    build_chart e data w = (Ok fig, w') ∧
    dashboard e' w' =
      (Ok tt,
       with_ui (ui w' ++ [UWarning no_data_warning; UInfo click_fetch_info]) w').
Proof.
  intros Hs Hd Hps Hv Hsel.
  pose proof (candlestick_layer_price_series d _ Hps) as Ht.
  eexists _, _. split; [by apply build_chart_effect|].
  eapply dashboard_invalid_effect.
  - exact Hs.
  - cbn [frames]. apply lookup_insert_eq.
  - right. apply df_any_null_true.
    rewrite (frame_after_vwap _ d Hsel), (indicator_frame_vwap_price_series d _ Hps).
    eexists "VWAP", _. split; [apply lookup_insert_eq|].
    apply list_elem_of_lookup. exists 0.
    apply vwap_running_ratio.
    + apply (ps_volume_nonneg _ _ Hps).
    + simpl. lia.
    + unfold cum_volume, Rsum. simpl. lra.
Qed.

(** ** Short series *)

Lemma rolling_mean_short (cs : list R) :
  length cs < 20 → rolling_mean 20 (Fin <$> cs) = replicate (length cs) NaN.
Proof.
  intros H. apply list_eq. intros i.
  destruct (decide (i < length cs)) as [Hi|Hi].
  - rewrite rolling_mean_fin by done. rewrite decide_False by lia.
    symmetry. by apply lookup_replicate_2.
  - rewrite !lookup_ge_None_2; [done | rewrite length_replicate; lia |].
    rewrite rolling_mean_length, length_fmap. lia.
Qed.

Lemma rolling_std_short (cs : list R) :
  length cs < 20 → rolling_std 20 (Fin <$> cs) = replicate (length cs) NaN.
Proof.
  intros H. apply list_eq. intros i.
  destruct (decide (i < length cs)) as [Hi|Hi].
  - rewrite rolling_std_fin by done. rewrite decide_False by lia.
    symmetry. by apply lookup_replicate_2.
  - rewrite !lookup_ge_None_2; [done | rewrite length_replicate; lia |].
    rewrite rolling_std_length, length_fmap. lia.
Qed.

Lemma bands_of_nan n :
  series_add (replicate n NaN) (scalar_mul 2 (replicate n NaN)) = replicate n NaN ∧
  series_sub (replicate n NaN) (scalar_mul 2 (replicate n NaN)) = replicate n NaN.
Proof.
  unfold series_add, series_sub, scalar_mul.
  induction n as [|n [IH1 IH2]]; [done|]. csimpl. by rewrite IH1, IH2.
Qed.

(** A price series of fewer than 20 rows: SMA and Bollinger Bands are
    added without any message, and each of the three lines is the
    missing marker at every row. *)
Theorem short_series_has_empty_windows (w : world) (data fig : nat)
    (d : DataFrame) (f : Figure) (rows : list bar) :
  frames w !! data = Some d →
  figures w !! fig = Some f →
  price_series d rows →
  length rows < 20 →
  ∃ w',
    add_indicators ["20-Day SMA"; "20-Day Bollinger Bands"] data fig w = (Ok tt, w') ∧
    ui w' = ui w ∧
    figures w' !! fig =
      Some (add_layers f
              [Scatter (fin_col bar_date rows) (replicate (length rows) NaN)
                 "lines" "SMA (20)";
               Scatter (fin_col bar_date rows) (replicate (length rows) NaN)
                 "lines" "BB Upper";
               Scatter (fin_col bar_date rows) (replicate (length rows) NaN)
                 "lines" "BB Lower"]).
Proof.
  intros Hd Hf Hps Hn. eexists. split; [by apply add_indicators_effect|].
  assert (Hl : length (bar_close <$> rows) < 20) by (by rewrite length_fmap).
  unfold selected_errors, selected_layers. cbn [flat_map ui figures].
  rewrite (indicator_layers_sma d rows Hps), (indicator_layers_bb d rows Hps).
  cbn [indicator_errors layers_or_none app]. split; [by rewrite app_nil_r|].
  rewrite lookup_insert_eq. unfold fin_col at 2 4 5 7 8.
  rewrite (rolling_mean_short _ Hl), (rolling_std_short _ Hl).
  destruct (bands_of_nan (length (bar_close <$> rows))) as [-> ->].
  by rewrite length_fmap.
Qed.

(** ** Missing columns *)

Lemma show_data_missing data w d :
  frames w !! data = Some d → columns d !! "Open" = None →
  show_data data w = (Raise (KeyError "Open"), w).
Proof.
  intros Hd Ho. unfold show_data.
  by rewrite bind_run, (getitem_run _ _ _ _ Hd), Ho.
Qed.

(** When a stored frame passes line 43 but lacks one of the five price
    columns, the run ends with the [KeyError] of a missing column: it
    is raised either by line 45 or by the conversion, whose handler is
    for [ValueError] only.  No frame and no figure is changed, and the
    output is at most the summary of lines 45-52. *)
Theorem missing_price_column_is_not_handled (e : env) (w : world) (data : nat)
    (d : DataFrame) (k : string) :
  session_state w !! "stock_data" = Some (Some data) →
  frames w !! data = Some d →
  df_empty d = false →
  df_any_null d = false →
  k ∈ ["Open"; "High"; "Low"; "Close"; "Volume"] →
  columns d !! k = None →
  ∃ k' w',
    dashboard e w = (Raise (KeyError k'), w') ∧
    columns d !! k' = None ∧
    frames w' = frames w ∧
    figures w' = figures w ∧
    (ui w' = ui w ∨ ui w' = ui w ++ show_events d).
Proof.
  intros Hs Hd He Hn Hin Hk. unfold dashboard.
  rewrite bind_run. unfold session_contains. rewrite Hs.
  rewrite bool_decide_eq_true_2 by (by eexists).
  rewrite bind_run. unfold session_get. rewrite Hs.
  rewrite bind_run. unfold data_available. rewrite bind_run.
  unfold get_frame. rewrite Hd. unfold ret. rewrite He, Hn. cbn [negb andb].
  destruct (columns d !! "Open") as [o|] eqn:Ho.
  - rewrite bind_run, (show_data_effect _ _ _ _ Hd Ho).
    destruct (convert_numeric_missing data (with_ui (ui w ++ show_events d) w) d k)
      as (k' & _ & Hk' & Hrun); [exact Hd | exact Hin | exact Hk |].
    rewrite bind_run, Hrun. eexists k', _. split; [reflexivity|].
    split_and!; try done. by right.
  - rewrite bind_run, (show_data_missing _ _ _ Hd Ho).
    eexists "Open", _. split; [reflexivity|]. split_and!; try done. by left.
Qed.

(** ** Instances *)

Lemma zero_volume_rows_nonneg :
  Forall (λ b, 0 <= bar_volume b)%R zero_volume_rows.
Proof. repeat constructor; simpl; lra. Qed.

Lemma zero_first_volume_fails_next_validation_witness :
  ∃ fig w',
    build_chart (view ["VWAP"]) 0 (session_with (frame_of zero_volume_rows))
      = (Ok fig, w') ∧
    dashboard (view ["20-Day SMA"]) w' =
      (Ok tt,
       with_ui (ui w' ++ [UWarning no_data_warning; UInfo click_fetch_info]) w').
Proof.
  apply (zero_first_volume_fails_next_validation (view ["VWAP"])
           (view ["20-Day SMA"]) (session_with (frame_of zero_volume_rows)) 0
           (frame_of zero_volume_rows)
           {| bar_date := 0; bar_open := 10; bar_high := 12; bar_low := 9;
              bar_close := 11; bar_volume := 0 |}
           [ {| bar_date := 1; bar_open := 11; bar_high := 13; bar_low := 10;
                bar_close := 12; bar_volume := 500 |} ]).
  - reflexivity.
  - reflexivity.
  - apply (frame_of_price_series zero_volume_rows), zero_volume_rows_nonneg.
  - reflexivity.
  - repeat constructor.
Defined.

Lemma failed_fetch_stops_and_keeps_session_witness :
  script (failed_fetch (OtherError "No data found, symbol may be delisted"))
         (session_with (frame_of (sample_rows 2))) =
    (Stop,
     with_ui (ui (session_with (frame_of (sample_rows 2)))
              ++ [UError ("Error fetching data: "
                          +:+ exn_str (OtherError "No data found, symbol may be delisted"))])
             (session_with (frame_of (sample_rows 2)))).
Proof.
  apply (failed_fetch_stops_and_keeps_session
           (failed_fetch (OtherError "No data found, symbol may be delisted"))
           (session_with (frame_of (sample_rows 2)))
           (OtherError "No data found, symbol may be delisted")).
  - reflexivity.
  - reflexivity.
Defined.

Lemma invalid_download_replaces_stored_series_witness :
  ∃ l w',
    script (fetch empty_frame) (session_with (frame_of (sample_rows 2))) = (Ok tt, w') ∧
    frames (session_with (frame_of (sample_rows 2))) !! l = None ∧
    session_state w' !! "stock_data" = Some (Some l) ∧
    frames w' = <[l := empty_frame]> (frames (session_with (frame_of (sample_rows 2)))) ∧
    figures w' = figures (session_with (frame_of (sample_rows 2))) ∧
    ui w' = ui (session_with (frame_of (sample_rows 2)))
            ++ [USuccess "Stock data loaded successfully!";
                UWarning no_data_warning; UInfo click_fetch_info].
Proof.
  apply (invalid_download_replaces_stored_series (fetch empty_frame)
           (session_with (frame_of (sample_rows 2))) empty_frame).
  - reflexivity.
  - reflexivity.
  - left. reflexivity.
Defined.

Lemma gate_accepts_exactly_complete_frames_witness :
  ∃ b, data_available (Some 0) (session_with null_close_frame)
       = (Ok b, session_with null_close_frame) ∧
       (b = true ↔
        0 < nrows null_close_frame ∧ columns null_close_frame ≠ ∅ ∧
        ∀ k c, columns null_close_frame !! k = Some c → NaN ∉ c).
Proof.
  apply (gate_accepts_exactly_complete_frames (session_with null_close_frame) 0
           null_close_frame).
  reflexivity.
Defined.

Lemma missing_price_column_is_not_handled_witness :
  ∃ k' w',
    dashboard (view ["20-Day SMA"]) (session_with no_volume_frame)
      = (Raise (KeyError k'), w') ∧
    columns no_volume_frame !! k' = None ∧
    frames w' = frames (session_with no_volume_frame) ∧
    figures w' = figures (session_with no_volume_frame) ∧
    (ui w' = ui (session_with no_volume_frame) ∨
     ui w' = ui (session_with no_volume_frame) ++ show_events no_volume_frame).
Proof.
  apply (missing_price_column_is_not_handled (view ["20-Day SMA"])
           (session_with no_volume_frame) 0 no_volume_frame "Volume").
  - reflexivity.
  - reflexivity.
  - vm_compute. reflexivity.
  - vm_compute. reflexivity.
  - repeat constructor.
  - vm_compute. reflexivity.
Defined.

Lemma chart_needs_candlestick_columns_witness :
  ∃ before k after,
    ["Date"; "Open"; "High"; "Low"; "Close"] = before ++ k :: after ∧
    (∀ k', k' ∈ before → is_Some (columns no_date_frame !! k')) ∧
    columns no_date_frame !! k = None ∧
    build_chart (view ["20-Day SMA"]) 0 (session_with no_date_frame)
      = (Raise (KeyError k), session_with no_date_frame).
Proof.
  apply (chart_needs_candlestick_columns (view ["20-Day SMA"])
           (session_with no_date_frame) 0 no_date_frame).
  - reflexivity.
  - vm_compute. reflexivity.
Defined.

Lemma analysis_shows_reply_and_cleans_up_witness :
  run_analysis (analyze (inr sample_png) (inr (reply "BUY"))) 0
    (session_with_chart (frame_of (sample_rows 2)) blank_figure) =
    (Ok tt,
     with_ui (ui (session_with_chart (frame_of (sample_rows 2)) blank_figure)
              ++ [USpinner "Analyzing the chart, please wait...";
                  UWrite "**AI Analysis Results:**";
                  UWrite "BUY"])
             (session_with_chart (frame_of (sample_rows 2)) blank_figure)).
Proof.
  apply (analysis_shows_reply_and_cleans_up
           (analyze (inr sample_png) (inr (reply "BUY"))) 0
           (session_with_chart (frame_of (sample_rows 2)) blank_figure)
           blank_figure sample_png (reply "BUY")
           {[ "role" := "assistant"; "content" := "BUY" ]} "BUY").
  - reflexivity.
  - reflexivity.
  - reflexivity.
  - vm_compute. reflexivity.
  - vm_compute. reflexivity.
Defined.

Lemma valid_series_reaches_chart_witness :
  ∃ t w1,
    candlestick_layer (frame_of (sample_rows 2)) = Some t ∧
    frames w1 =
      <[0 := frame_after (indicators (view ["VWAP"])) (frame_of (sample_rows 2))]>
        (frames (session_with (frame_of (sample_rows 2)))) ∧
    figures w1 =
      <[fresh (dom (figures (session_with (frame_of (sample_rows 2))))) :=
          chart_of (view ["VWAP"]) (frame_of (sample_rows 2)) t]>
        (figures (session_with (frame_of (sample_rows 2)))) ∧
    session_state w1 = session_state (session_with (frame_of (sample_rows 2))) ∧
    files w1 = files (session_with (frame_of (sample_rows 2))) ∧
    ui w1 = ui (session_with (frame_of (sample_rows 2)))
            ++ show_events (frame_of (sample_rows 2))
            ++ chart_events (view ["VWAP"]) (frame_of (sample_rows 2)) t
            ++ [USubheader "AI-Powered Analysis"] ∧
    dashboard (view ["VWAP"]) (session_with (frame_of (sample_rows 2))) =
      if analysis_button (view ["VWAP"])
      then run_analysis (view ["VWAP"])
             (fresh (dom (figures (session_with (frame_of (sample_rows 2)))))) w1
      else (Ok tt, w1).
Proof.
  apply (valid_series_reaches_chart (view ["VWAP"])
           (session_with (frame_of (sample_rows 2))) 0
           (frame_of (sample_rows 2)) (sample_rows 2)).
  - reflexivity.
  - reflexivity.
  - apply frame_of_price_series, day_volume_nonneg.
  - simpl. lia.
  - vm_compute. reflexivity.
Defined.

Lemma short_series_has_empty_windows_witness :
  ∃ w',
    add_indicators ["20-Day SMA"; "20-Day Bollinger Bands"] 0 0
      (session_with_chart (frame_of (sample_rows 5)) blank_figure) = (Ok tt, w') ∧
    ui w' = ui (session_with_chart (frame_of (sample_rows 5)) blank_figure) ∧
    figures w' !! 0 =
      Some (add_layers blank_figure
              [Scatter (fin_col bar_date (sample_rows 5))
                 (replicate (length (sample_rows 5)) NaN) "lines" "SMA (20)";
               Scatter (fin_col bar_date (sample_rows 5))
                 (replicate (length (sample_rows 5)) NaN) "lines" "BB Upper";
               Scatter (fin_col bar_date (sample_rows 5))
                 (replicate (length (sample_rows 5)) NaN) "lines" "BB Lower"]).
Proof.
  apply (short_series_has_empty_windows
           (session_with_chart (frame_of (sample_rows 5)) blank_figure) 0 0
           (frame_of (sample_rows 5)) blank_figure (sample_rows 5)).
  - reflexivity.
  - reflexivity.
  - apply frame_of_price_series, day_volume_nonneg.
  - simpl. lia.
Defined.

